(** * IRBEM.py: the derived computation layer of the Python wrapper

    A shallow embedding of [src/python/IRBEM.py]: the magnetic-model input
    normaliser [_prepMagInput], the field-line interpolator
    [_interpolate_field_line], the two pipeline entry points [bounce_period]
    and [mirror_point_altitude], and the kinematics helpers [beta] and
    [vparalel].  The helper [gamma], and the time and location normaliser
    ([_prepTimeLoc] and the marshalling loop of [make_lstar]) on explicit
    Python values, follow in the module [Input] and are linked to the
    pipeline by [wrapper_engine].

    Conventions of the embedding.
    - Python floats and C doubles are idealised as real numbers ([R]); IEEE
      rounding, infinities and NaN are outside the model, and division is
      Rocq's total division.  [len(S)/2] is Python 3's true division.
    - Raising an exception is a left injection; [print] appends a line to an
      explicit standard-output log that is threaded through every call.
      Attributes cached on [self] ([self.maginput], [self.Tb], ...) are the
      values returned.
    - The compiled IRBEM engine, the date parser, [scipy.interpolate.interp1d]
      and [scipy.optimize.brentq] are not code of the wrapper: they are the
      fields of the classes [Engine] and [SciPy], and every statement about
      the wrapper is made for an arbitrary instance of them.  An interpolant
      is a total function of the arc parameter; the wrapper evaluates it
      between the brackets the root-finder returns, inside the sampled
      range.
    - numpy array primitives used by the wrapper ([linspace], [convolve],
      slicing, element-wise arithmetic) are modelled on lists.

    The file has four parts: the model of the wrapper, synthetic
    collaborators on which it can be run, the vocabulary of the statements,
    and the statements with their proofs. *)

From Stdlib Require Import Reals Lra Lia ZArith List String Ascii Bool Arith.
Import ListNotations.

Local Open Scope string_scope.
Local Open Scope R_scope.
Local Open Scope list_scope.

(** ** Exceptions and the interpreter monad *)

(** Python exception objects: the class and the [args] tuple.  An argument
    is a string or, as in the re-raise of [bounce_period], another exception
    object. *)
Inductive exn : Type :=
| ValueError (args : list pyarg)
| TypeError (args : list pyarg)
| IndexError (args : list pyarg)
| KeyError (args : list pyarg)
| UnboundLocalError (var : string)
| OtherError (class : string) (args : list pyarg)
with pyarg : Type :=
| AStr (s : string)
| AExn (e : exn).

(** [str(err) == msg].  [str] of an exception with exactly one string
    argument is that string; with no argument it is the empty string and
    with several it is the repr of a tuple, which starts with a parenthesis:
    neither is equal to the non-empty message literals the wrapper compares
    against. *)
Definition str_is (err : exn) (msg : string) : bool :=
  let args :=
    match err with
    | ValueError a | TypeError a | IndexError a | KeyError a => a
    | UnboundLocalError _ => []
    | OtherError _ a => a
    end in
  match args with
  | [AStr s] => String.eqb s msg
  | _ => false
  end.

(** Result of a computation that can raise. *)
Definition result (A : Type) : Type := (exn + A)%type.

Definition rbind {A B : Type} (r : result A) (k : A -> result B) : result B :=
  match r with
  | inl e => inl e
  | inr a => k a
  end.

(** A call of a method of the wrapper: it reads and extends the standard
    output and either raises or returns. *)
Definition Py (A : Type) : Type := list string -> result A * list string.

Definition ret {A : Type} (a : A) : Py A := fun out => (inr a, out).

Definition raise {A : Type} (e : exn) : Py A := fun out => (inl e, out).

Definition bind {A B : Type} (m : Py A) (k : A -> Py B) : Py B :=
  fun out =>
    match m out with
    | (inl e, out') => (inl e, out')
    | (inr a, out') => k a out'
    end.

Definition lift {A : Type} (r : result A) : Py A := fun out => (r, out).

Definition print (line : string) : Py unit := fun out => (inr tt, out ++ [line]).

Definition when (b : bool) (m : Py unit) : Py unit := if b then m else ret tt.

Declare Scope py_scope.
Delimit Scope py_scope with py.
Notation "x <- m ;; k" := (bind m (fun x => k))
  (at level 61, m at next level, right associativity) : py_scope.
Notation "m ;;; k" := (bind m (fun _ => k))
  (at level 61, right associativity) : py_scope.
Notation "x <-? r ;; k" := (rbind r (fun x => k))
  (at level 61, r at next level, right associativity) : py_scope.
Local Open Scope py_scope.

(** A bounded [for] loop over a list of indices that mutates a buffer and
    stops at the first exception. *)
Fixpoint for_each {I S : Type} (xs : list I) (body : I -> S -> result S) (s : S)
  : result S :=
  match xs with
  | [] => inr s
  | i :: rest => s' <-? body i s ;; for_each rest body s'
  end.

(** ** Python and ctypes values *)

(** The values a model-input dictionary can hold, by Python type.  Numeric
    sequences hold reals. *)
Inductive pyvalue : Type :=
| PyInt (z : Z)
| PyFloat (x : R)
| NpFloat64 (x : R)
| PyList (xs : list R)
| NdArray (xs : list R)
| PyStr (s : string)
| PyNone.

Inductive pytype : Type :=
| t_int | t_float | t_np_float64 | t_list | t_ndarray | t_str | t_NoneType.

Definition type_of (v : pyvalue) : pytype :=
  match v with
  | PyInt _ => t_int
  | PyFloat _ => t_float
  | NpFloat64 _ => t_np_float64
  | PyList _ => t_list
  | NdArray _ => t_ndarray
  | PyStr _ => t_str
  | PyNone => t_NoneType
  end.

Definition pytype_eqb (a b : pytype) : bool :=
  match a, b with
  | t_int, t_int | t_float, t_float | t_np_float64, t_np_float64
  | t_list, t_list | t_ndarray, t_ndarray | t_str, t_str
  | t_NoneType, t_NoneType => true
  | _, _ => false
  end.

Definition type_in (t : pytype) (ts : list pytype) : bool :=
  existsb (pytype_eqb t) ts.

(** [v[dt]] for a non-negative index. *)
Definition getitem (v : pyvalue) (dt : nat) : result pyvalue :=
  match v with
  | PyList xs =>
      match nth_error xs dt with
      | Some x => inr (PyFloat x)
      | None => inl (IndexError [AStr "list index out of range"])
      end
  | NdArray xs =>
      match nth_error xs dt with
      | Some x => inr (NpFloat64 x)
      | None => inl (IndexError [AStr "index out of bounds"])
      end
  | PyStr s =>
      match String.get dt s with
      | Some ch => inr (PyStr (String ch EmptyString))
      | None => inl (IndexError [AStr "string index out of range"])
      end
  | NpFloat64 _ => inl (IndexError [AStr "invalid index to scalar variable."])
  | PyInt _ => inl (TypeError [AStr "'int' object is not subscriptable"])
  | PyFloat _ => inl (TypeError [AStr "'float' object is not subscriptable"])
  | PyNone => inl (TypeError [AStr "'NoneType' object is not subscriptable"])
  end.

(** The ints that do not convert to a C double: those that round to a
    value beyond the largest finite double, that is, of magnitude
    2^1024 - 2^970 or more. *)
Definition int_overflows_double (z : Z) : bool :=
  (2 ^ 1024 - 2 ^ 970 <=? Z.abs z)%Z.

Arguments int_overflows_double : simpl never.

(** Storing a Python value in a [ctypes.c_double] slot.  An int beyond the
    range of a double raises OverflowError.  An array of one entry converts,
    as in the numpy 1.x releases the wrapper was written for; numpy 2
    rejects it with a TypeError. *)
Definition to_c_double (v : pyvalue) : result R :=
  match v with
  | PyInt z =>
      if int_overflows_double z then
        inl (OtherError "OverflowError"
               [AStr "int too large to convert to float"])
      else inr (IZR z)
  | PyFloat x => inr x
  | NpFloat64 x => inr x
  | NdArray [x] => inr x
  | NdArray _ => inl (TypeError [AStr "only size-1 arrays can be converted to Python scalars"])
  | PyList _ => inl (TypeError [AStr "must be real number, not list"])
  | PyStr _ => inl (TypeError [AStr "must be real number, not str"])
  | PyNone => inl (TypeError [AStr "must be real number, not NoneType"])
  end.

(** A Python dictionary with string keys, in insertion order. *)
Definition pydict : Type := list (string * pyvalue).

Definition keys (d : pydict) : list string := map fst d.

(** [k in list(d.keys())] *)
Definition key_in (k : string) (d : pydict) : bool :=
  existsb (String.eqb k) (keys d).

(** [d[k]] *)
Definition dict_get (d : pydict) (k : string) : result pyvalue :=
  match find (fun kv => String.eqb k (fst kv)) d with
  | Some kv => inr (snd kv)
  | None => inl (KeyError [AStr k])
  end.

(** [l[i] = v] on a fixed-size ctypes array (the wrapper only writes inside
    the bounds it allocated). *)
Fixpoint list_set {A : Type} (i : nat) (v : A) (l : list A) : list A :=
  match l, i with
  | [], _ => []
  | _ :: t, O => v :: t
  | h :: t, S j => h :: list_set j v t
  end.

(** [m[i][dt] = v] on a ctypes array of arrays. *)
Fixpoint mat_set (i dt : nat) (v : R) (m : list (list R)) : list (list R) :=
  match m, i with
  | [], _ => []
  | row :: t, O => list_set dt v row :: t
  | row :: t, S j => row :: mat_set j dt v t
  end.

(** ** [_prepMagInput] *)

Definition orderedKeys : list string :=
  ["Kp"; "Dst"; "dens"; "velo"; "Pdyn"; "ByIMF"; "BzIMF"; "G1"; "G2"; "G3";
   "W1"; "W2"; "W3"; "W4"; "W5"; "W6"; "AL"].

(** [self.maginput]: [c_double * 25] or [(c_double * nTimePy) * 25]. *)
Inductive c_maginput : Type :=
| MagVec (v : list R)
| MagMat (m : list (list R)).

(** The body of the loop of the array branch, for key index [i] and time
    index [dt]. *)
Definition fill_matrix_entry (inputDict : pydict) (i dt : nat)
  (maginput : list (list R)) : result (list (list R)) :=
  let key := nth i orderedKeys "" in
  if key_in key inputDict then
    col <-? dict_get inputDict key ;;
    item <-? getitem col dt ;;
    x <-? to_c_double item ;;
    inr (mat_set i dt x maginput)
  else
    inr (mat_set i dt (-9999) maginput).

(** The body of the loop of the scalar branch, for key index [i]. *)
Definition fill_vector_entry (inputDict : pydict) (i : nat)
  (maginput : list R) : result (list R) :=
  let key := nth i orderedKeys "" in
  if key_in key inputDict then
    v <-? dict_get inputDict key ;;
    x <-? to_c_double v ;;
    inr (list_set i x maginput)
  else
    inr (list_set i (-9999) maginput).

Definition _prepMagInput (inputDict : option pydict) : result c_maginput :=
  match inputDict with
  | None =>
      (* static magnetic field model *)
      inr (MagVec (fold_left (fun buf i => list_set i (-9999) buf)
                     (seq 0 25) (repeat 0 25)))
  | Some d =>
      match d with
      | [] => inl (IndexError [AStr "list index out of range"])
      | (key0, val0) :: _ =>
          let magType := type_of val0 in
          if type_in magType [t_ndarray; t_list] then
            let nTimePy := String.length key0 in
            m <-? for_each (seq 0 (List.length orderedKeys))
                    (fun i => for_each (seq 0 nTimePy)
                                (fun dt => fill_matrix_entry d i dt))
                    (repeat (repeat 0 nTimePy) 25) ;;
            inr (MagMat m)
          else if type_in magType [t_int; t_float; t_np_float64] then
            v <-? for_each (seq 0 (List.length orderedKeys))
                    (fill_vector_entry d) (repeat 0 25) ;;
            inr (MagVec v)
          else
            inl (TypeError [AStr ("Model inputs are in an unrecognizable format." ++
                   " Try a dictionary of numpy arrays, lists, ints or floats")%string])
      end
  end.

(** ** numpy primitives *)

Definition np_sum (a : list R) : R := fold_right Rplus 0 a.

Fixpoint map2 {A B C : Type} (f : A -> B -> C) (a : list A) (b : list B) : list C :=
  match a, b with
  | x :: a', y :: b' => f x y :: map2 f a' b'
  | _, _ => []
  end.

(** Normalisation of one bound of a Python slice on a sequence of length
    [len]: a negative bound counts from the end, and every bound is clamped
    to [0, len]. *)
Definition slice_bound (len : nat) (i : Z) : nat :=
  if (i <? 0)%Z then Z.to_nat (Z.max 0 (Z.of_nat len + i))
  else Z.to_nat (Z.min i (Z.of_nat len)).

(** [a[start:stop]] *)
Definition py_slice {A : Type} (start stop : Z) (a : list A) : list A :=
  let lo := slice_bound (List.length a) start in
  let hi := slice_bound (List.length a) stop in
  firstn (hi - lo) (skipn lo a).

(** [np.linspace(start, stop, num = num)].  The last sample is
    [start + (num-1) * (delta / (num-1))], which over the reals is [stop];
    numpy's final assignment [y[-1] = stop] is therefore not repeated. *)
Definition np_linspace (start stop : R) (num : Z) : result (list R) :=
  if (num <? 0)%Z then
    inl (ValueError [AStr "Number of samples must be non-negative."])
    (* the message, which also quotes the number, is abbreviated *)
  else
    let div := (num - 1)%Z in
    let delta := stop - start in
    let y := map INR (seq 0 (Z.to_nat num)) in
    let y := if (0 <? div)%Z then map (fun t => t * (delta / IZR div)) y
             else map (fun t => t * delta) y in
    inr (map (fun t => t + start) y).

(** Element-wise sum of two sequences, the longer one keeping its tail. *)
Fixpoint add_pad (a b : list R) : list R :=
  match a, b with
  | [], _ => b
  | _, [] => a
  | x :: a', y :: b' => (x + y) :: add_pad a' b'
  end.

(** The full discrete convolution: entry [k] is the sum of [a[j] * v[k-j]]. *)
Fixpoint convolve_full (a v : list R) : list R :=
  match a with
  | [] => []
  | x :: a' => add_pad (map (Rmult x) v) (0 :: convolve_full a' v)
  end.

(** [np.convolve(a, v, mode = 'same')]: the operands are swapped when [v] is
    the longer one, an empty operand is rejected, and of the full
    convolution the [max(len a, len v)] entries that follow the first
    [(len v - 1) / 2] are kept. *)
Definition np_convolve_same (a v : list R) : result (list R) :=
  let (a, v) := if (List.length a <? List.length v)%nat then (v, a) else (a, v) in
  match a, v with
  | [], _ => inl (ValueError [AStr "a cannot be empty"])
  | _, [] => inl (ValueError [AStr "v cannot be empty"])
  | _, _ =>
      inr (firstn (List.length a)
             (skipn ((List.length v - 1) / 2) (convolve_full a v)))
  end.

(** ** Constants and kinematics helpers *)

Definition Re : R := 6371.      (* km *)
Definition c : R := 300000000.  (* 3.0E8 m/s *)

(** The three lambdas are taken over the reals.  On doubles the
    difference [1 - x**(-2)] rounds to 1 for kinetic energies above about
    7e10 keV and to 0 for very small ones, so of [beta] in [0, 1) only the
    closed interval carries over to the code. *)
Definition beta (Ek Erest : R) : R :=
  sqrt (1 - / ((Ek / Erest + 1) ^ 2)).

Definition vparalel (Ek Bm B Erest : R) : R :=
  c * beta Ek Erest * sqrt (1 - Rabs (B / Bm)).

(** ** External collaborators *)

(** The compiled IRBEM library together with the argument marshalling that
    precedes each call (deep copy, promotion of scalars, date parsing). *)
Class Engine : Type := {
  Xdict : Type;
  lstar_args : Type;
  trace_args : Type;
  (* make_lstar: promotion of X to arrays and [len(X2['dateTime'])] *)
  lstar_count : Xdict -> result nat;
  (* make_lstar: conversion of the times to datetime objects *)
  lstar_parse : Xdict -> result lstar_args;
  (* make_lstar: filling of iyear, idoy, ut, x1, x2, x3 *)
  lstar_fill : Xdict -> lstar_args -> result lstar_args;
  (* the [blocal] output of [make_lstar1_] *)
  make_lstar1_ : lstar_args -> c_maginput -> list R;
  _prepTimeLoc : Xdict -> result trace_args;
  (* posit, blocal and Nposit as [trace_field_line2_1_] leaves them; the
     two buffers have 3000 entries *)
  trace_field_line2_1_ :
    trace_args -> c_maginput -> R -> list (R * R * R) * list R * Z
}.

(** [scipy.interpolate.interp1d(x, y, kind = 'cubic')] and
    [scipy.optimize.brentq(f, a, b)]. *)
Class SciPy : Type := {
  interp1d_cubic : list R -> list R -> result (R -> R);
  brentq : (R -> R) -> R -> R -> result R
}.

(** ** The wrapper *)

Record lstar1_output : Type := {
  lstar_blocal : list R    (* 'blocal'; the other keys are not read below *)
}.

Record trace_field_line2_output : Type := {
  POSIT : list (R * R * R);
  Nposit : Z;
  blocal : list R
}.

Record field_line : Type := {
  S_ : list nat;           (* 'S' = range(N) *)
  fB : R -> R;
  fx : R -> R;
  fy : R -> R;
  fz : R -> R;
  inputB : R
}.

Record kwargs : Type := {
  Erest : R;
  R0 : R;
  STATUS_FLAG : bool;
  interpNum : Z
}.

Definition default_kwargs : kwargs :=
  {| Erest := 511; R0 := 1; STATUS_FLAG := false; interpNum := 100000 |}.

(** The energy argument of [bounce_period] and the shape of its result. *)
Inductive energy : Type :=
| EScalar (E : R)
| EArray (Es : list R).

Inductive bounce_result : Type :=
| TbScalar (Tb : R)
| TbList (Tbs : list R).

(** [seq[0]] *)
Definition getitem0 (a : list R) : result R :=
  match a with
  | x :: _ => inr x
  | [] => inl (IndexError [AStr "list index out of range"])
  end.

(** [posit[:n, j]] on the array [np.array(list_of_triples)]: numpy makes a
    one-dimensional array of an empty list, and indexing that with two
    indices raises. *)
Definition column (posit : list (R * R * R)) (n : Z) (proj : R * R * R -> R)
  : result (list R) :=
  match posit with
  | [] => inl (IndexError [AStr "too many indices for array"])
  | _ => inr (map proj (py_slice 0 n posit))
  end.

Definition sign_msg : string := "f(a) and f(b) must have different signs".

Definition newline : string := String "010"%char EmptyString.

(** Reading a local variable that the [try] block may have left unbound. *)
Definition local (name : string) (v : option R) : Py R :=
  match v with
  | Some x => ret x
  | None => raise (UnboundLocalError name)
  end.

Section Wrapper.
Context {engine : Engine} {scipy : SciPy}.

Definition make_lstar (X : Xdict) (maginput : option pydict) (status : bool)
  : Py lstar1_output :=
  nTimePy <- lift (lstar_count X) ;;
  when (50000 <? Z.of_nat nTimePy)%Z
    (print ("Warning, more than 50,000 data points fed to IRBEM. " ++
            "It may crash without warning!")%string) ;;;
  t <- lift (lstar_parse X) ;;
  maginput <- lift (_prepMagInput maginput) ;;
  args <- lift (lstar_fill X t) ;;
  when status (print "Running IRBEM-LIB make_lstar") ;;;
  ret {| lstar_blocal := make_lstar1_ args maginput |}.

Definition trace_field_line (X : Xdict) (maginput : option pydict) (R0 : R)
  (status : bool) : Py trace_field_line2_output :=
  maginput <- lift (_prepMagInput maginput) ;;
  args <- lift (_prepTimeLoc X) ;;
  when status
    (print ("Running IRBEM-LIB trace_field_line. Python may " ++
            "temporarily stop responding")%string) ;;;
  let '(posit, blocal, Nposit) := trace_field_line2_1_ args maginput R0 in
  ret {| POSIT := py_slice 0 Nposit posit;
         Nposit := Nposit;
         blocal := py_slice 0 Nposit blocal |}.

Definition _interpolate_field_line (X : Xdict) (maginput : option pydict)
  (R0 : R) (status : bool) : Py field_line :=
  lstar <- make_lstar X maginput status ;;
  inputblocal <- lift (getitem0 (lstar_blocal lstar)) ;;
  (* R0 is not forwarded: the trace always stops at the default radius *)
  out <- trace_field_line X maginput 1 status ;;
  if (Nposit out =? -9999)%Z then
    raise (ValueError [AStr "This is an open field line!"])
  else
    xGEO <- lift (column (POSIT out) (Nposit out) (fun p => fst (fst p))) ;;
    yGEO <- lift (column (POSIT out) (Nposit out) (fun p => snd (fst p))) ;;
    zGEO <- lift (column (POSIT out) (Nposit out) (fun p => snd p)) ;;
    let S := seq 0 (List.length (py_slice 0 (Nposit out) (blocal out))) in
    fB <- lift (interp1d_cubic (map INR S)
                  (map (fun b => b - inputblocal)
                     (py_slice 0 (Nposit out) (blocal out)))) ;;
    fx <- lift (interp1d_cubic (map INR S) xGEO) ;;
    fy <- lift (interp1d_cubic (map INR S) yGEO) ;;
    fz <- lift (interp1d_cubic (map INR S) zGEO) ;;
    ret {| S_ := S; fB := fB; fx := fx; fy := fy; fz := fz;
           inputB := inputblocal |}.

(** The body of the [try] block shared by the two entry points: the local
    variables [startInd] and [endInd] as it leaves them, and the exception
    that interrupted it, if any. *)
Definition try_brackets (fLine : field_line)
  : option R * option R * option exn :=
  let half := INR (List.length (S_ fLine)) / 2 in
  match brentq (fB fLine) 0 half with
  | inl err => (None, None, Some err)
  | inr startInd =>
      match brentq (fB fLine) half (INR (List.length (S_ fLine)) - 1) with
      | inl err => (Some startInd, None, Some err)
      | inr endInd => (Some startInd, Some endInd, None)
      end
  end.

(** [except ValueError as err:] with a handler that re-raises [reraised]
    when the message is the sign message, and does nothing otherwise. *)
Definition except_ValueError (pending : option exn) (reraised : exn -> exn)
  : Py unit :=
  match pending with
  | None => ret tt
  | Some err =>
      match err with
      | ValueError _ =>
          if str_is err sign_msg then raise (reraised err) else ret tt
      | _ => raise err
      end
  end.

Definition below_ground_long (err : exn) : exn :=
  ValueError [AStr ("Mirror point below the ground!, Change R0" ++
                    " or catch this error and assign it a value.")%string;
              AStr (newline ++ " Original error: ")%string;
              AExn err].

Definition bounce_sum (E : R) (fLine : field_line) (Erest : R)
  (ds dB : list R) : R :=
  2 * np_sum (map2 Rdiv (py_slice 1 (-1) ds)
                (py_slice 1 (-1)
                   (map (fun B => vparalel E (inputB fLine) B Erest) dB))).

Definition bounce_period (X : Xdict) (maginput : option pydict) (E : energy)
  (kw : kwargs) : Py bounce_result :=
  when (STATUS_FLAG kw) (print "IRBEM: Calculating bounce periods") ;;;
  fLine <- _interpolate_field_line X maginput (R0 kw) (STATUS_FLAG kw) ;;
  let '(startInd, endInd, pending) := try_brackets fLine in
  except_ValueError pending below_ground_long ;;;
  (* Resample S to a finer density of points. *)
  when (interpNum kw <? Z.of_nat (List.length (S_ fLine)))%Z
    (print ("Warning: interpolating with less data than IRBEM outputs," ++
            " the bounce period may be inaccurate!")%string) ;;;
  startInd <- local "startInd" startInd ;;
  endInd <- local "endInd" endInd ;;
  sInterp <- lift (np_linspace startInd endInd (interpNum kw)) ;;
  dx <- lift (np_convolve_same (map (fx fLine) sInterp) [-1; 1]) ;;
  dy <- lift (np_convolve_same (map (fy fLine) sInterp) [-1; 1]) ;;
  dz <- lift (np_convolve_same (map (fz fLine) sInterp) [-1; 1]) ;;
  let sq := map (fun d => d ^ 2) in
  let ds := map (fun q => 6371000 * sqrt q)
              (map2 Rplus (map2 Rplus (sq dx) (sq dy)) (sq dz)) in
  let dB := map (fun s => fB fLine s + inputB fLine) sInterp in
  match E with
  | EArray Es =>
      ret (TbList (map (fun Ei => bounce_sum Ei fLine (Erest kw) ds dB) Es))
  | EScalar E =>
      ret (TbScalar (bounce_sum E fLine (Erest kw) ds dB))
  end.

Definition radial (fLine : field_line) (s : R) : R :=
  sqrt (fx fLine s ^ 2 + fy fLine s ^ 2 + fz fLine s ^ 2).

Definition mirror_point_altitude (X : Xdict) (maginput : option pydict)
  (kw : kwargs) : Py R :=
  when (STATUS_FLAG kw) (print "IRBEM: Calculating mirror point altitude") ;;;
  fLine <- _interpolate_field_line X maginput (R0 kw) (STATUS_FLAG kw) ;;
  let '(startInd, endInd, pending) := try_brackets fLine in
  except_ValueError pending
    (fun err => if STATUS_FLAG kw then below_ground_long err
                else ValueError [AStr "Mirror point below the ground!"]) ;;;
  (* Start indicies of the magnetic field is always in the northern
     hemisphere, so take the opposite. *)
  s <- local "startInd" startInd ;;
  if Rgt_dec (fz fLine s) 0 then
    e <- local "endInd" endInd ;;
    ret (Re * (radial fLine e - 1))
  else
    ret (Re * (radial fLine s - 1)).

End Wrapper.

(** ** Synthetic collaborators

    Concrete instances of [Engine] and [SciPy] on which the wrapper can be
    run: an engine that returns a fixed trace, an interpolator that is exact
    on samples lying on one cubic, root-finders with a fixed behaviour, and
    one that bisects. *)

(** Padding of the samples to the 3000 slots of the output buffers. *)
Definition pad3000 {A : Type} (a : list A) (fill : A) : list A :=
  a ++ repeat fill (3000 - List.length a).

(** An engine whose field at the input point is [b0] and whose trace is
    the given samples with point count [n]. *)
Definition synthetic_engine (posit : list (R * R * R)) (field : list R)
  (n : Z) (b0 : R) : Engine :=
  {| Xdict := unit;
     lstar_args := unit;
     trace_args := unit;
     lstar_count := fun _ => inr 1%nat;
     lstar_parse := fun _ => inr tt;
     lstar_fill := fun _ _ => inr tt;
     make_lstar1_ := fun _ _ => [b0];
     _prepTimeLoc := fun _ => inr tt;
     trace_field_line2_1_ := fun _ _ _ =>
       (pad3000 posit (0, 0, 0), pad3000 field 0, n) |}.

(** Eight samples of a line running from the northern to the southern
    hemisphere at x = 2, y = 0, z = 7/2 - s, with the field
    100 + (s - 2) (s - 11/2). *)
Definition line_posit : list (R * R * R) :=
  [(2, 0, 7/2); (2, 0, 5/2); (2, 0, 3/2); (2, 0, 1/2);
   (2, 0, -1/2); (2, 0, -3/2); (2, 0, -5/2); (2, 0, -7/2)].

Definition line_field : list R :=
  [111; 209/2; 100; 195/2; 97; 197/2; 102; 215/2].

Definition closed_line_engine : Engine :=
  synthetic_engine line_posit line_field 8 100.

(** The same input point on a line that never returns to the stop radius:
    the engine leaves the point count at the sentinel. *)
Definition open_line_engine : Engine :=
  synthetic_engine [] [] (-9999) 100.

(** A trace that came back with no sample at all. *)
Definition empty_line_engine : Engine :=
  synthetic_engine [] [] 0 100.

(** A trace of three samples. *)
Definition short_line_engine : Engine :=
  synthetic_engine (firstn 3 line_posit) (firstn 3 line_field) 3 100.

(** The cubic through the first four samples.  The interpolating spline of
    [interp1d] coincides with it whenever all the samples lie on one cubic,
    as those of [line_posit] and [line_field] do. *)
Definition cubic_through_four (x y : list R) : result (R -> R) :=
  match x, y with
  | x0 :: x1 :: x2 :: x3 :: _, y0 :: y1 :: y2 :: y3 :: _ =>
      inr (fun s =>
             y0 * ((s - x1) * (s - x2) * (s - x3)) / ((x0 - x1) * (x0 - x2) * (x0 - x3))
           + y1 * ((s - x0) * (s - x2) * (s - x3)) / ((x1 - x0) * (x1 - x2) * (x1 - x3))
           + y2 * ((s - x0) * (s - x1) * (s - x3)) / ((x2 - x0) * (x2 - x1) * (x2 - x3))
           + y3 * ((s - x0) * (s - x1) * (s - x2)) / ((x3 - x0) * (x3 - x1) * (x3 - x2)))
  | _, _ => inl (ValueError [AStr "x and y arrays must have at least 4 entries"])
  end.

(** A root-finder that answers with the middle of the bracket; on
    [closed_line_engine] the two roots of the field deficit, 2 and 11/2,
    are the middles of [0, 4] and [4, 7]. *)
Definition midpoint_scipy : SciPy :=
  {| interp1d_cubic := cubic_through_four;
     brentq := fun _ a b => inr ((a + b) / 2) |}.

(** A root-finder that meets a NaN function value: scipy reports it as a
    [ValueError] whose message is not the sign message. *)
Definition nan_msg : string :=
  "The function value at x=0.0 is NaN; solver cannot continue.".

Definition nan_scipy : SciPy :=
  {| interp1d_cubic := cubic_through_four;
     brentq := fun _ _ _ => inl (ValueError [AStr nan_msg]) |}.





(** ** Vocabulary of the statements *)

(** The scalar types and the sequence types [_prepMagInput] recognises. *)
Definition is_scalar_numeric (v : pyvalue) : bool :=
  type_in (type_of v) [t_int; t_float; t_np_float64].

Definition is_sequence (v : pyvalue) : bool :=
  type_in (type_of v) [t_ndarray; t_list].

Definition uniformly_scalar (d : pydict) : bool :=
  forallb (fun kv => is_scalar_numeric (snd kv)) d.

Definition uniformly_sequence (d : pydict) : bool :=
  forallb (fun kv => is_sequence (snd kv)) d.




(** Three time steps of Kp given as a list. *)
Definition three_point_inputs : pydict := [("Kp", PyList [10; 20; 30])].

(** A list under one key and a numpy scalar under another. *)
Definition mixed_inputs : pydict :=
  [("Kp", PyList [1; 2]); ("Dst", NpFloat64 5)].



(** The first difference that the kernel [-1, 1] produces at index [j], as
    the convolution writes it. *)
Definition kernel_diff (g : nat -> R) (j : nat) : R :=
  match j with
  | O => g O * -1 + 0
  | S i => g i * 1 + (g (S i) * -1 + 0)
  end.

(** The [i]-th of [num] uniformly spaced arc parameters between the two
    mirror brackets. *)
Definition resample (sLow sHigh : R) (num : Z) (i : nat) : R :=
  sLow + INR i * ((sHigh - sLow) / IZR (num - 1)).

(** The arc-length increment at the resampled point [i]: the norm of the
    first difference of the interpolated position, in metres. *)
Definition arc_increment (fLine : field_line) (s : nat -> R) (i : nat) : R :=
  6371000 * sqrt ((fx fLine (s i) - fx fLine (s (i - 1)%nat)) ^ 2
                  + (fy fLine (s i) - fy fLine (s (i - 1)%nat)) ^ 2
                  + (fz fLine (s i) - fz fLine (s (i - 1)%nat)) ^ 2).

(** The indices of the interior resampled points: all but the first and
    the last of [0, ..., num - 1]. *)
Definition interior (num : Z) : list nat := seq 1 (Z.to_nat num - 2).

(** Twice the sum over the interior points of ds / v_parallel. *)
Definition bounce_integral (E Erest : R) (fLine : field_line)
  (sLow sHigh : R) (num : Z) : R :=
  2 * np_sum
        (map (fun i =>
                arc_increment fLine (resample sLow sHigh num) i
                / vparalel E (inputB fLine)
                    (fB fLine (resample sLow sHigh num i) + inputB fLine) Erest)
           (interior num)).

(** The standard output after the optional status line of an entry point. *)
Definition after_status (kw : kwargs) (line : string) (out : list string)
  : list string :=
  if STATUS_FLAG kw then out ++ [line] else out.

Definition density_warning : string :=
  ("Warning: interpolating with less data than IRBEM outputs," ++
   " the bounce period may be inaccurate!")%string.

(** The result of [bounce_period], by the shape of the energy argument. *)
Definition bounce_value (E : energy) (Erest : R) (fLine : field_line)
  (sLow sHigh : R) (num : Z) : bounce_result :=
  match E with
  | EScalar E => TbScalar (bounce_integral E Erest fLine sLow sHigh num)
  | EArray Es =>
      TbList (map (fun Ei => bounce_integral Ei Erest fLine sLow sHigh num) Es)
  end.

Definition open_field_line : exn :=
  ValueError [AStr "This is an open field line!"].

(** [scipy.interpolate.interp1d] rejects fewer than four entries for a
    cubic interpolant. *)
Definition interp1d_needs_four_entries {scipy : SciPy} : Prop :=
  forall x y : list R,
    (List.length x < 4)%nat ->
    exists msg, interp1d_cubic x y = inl (ValueError [AStr msg]).


(** The interpolator has obtained the field [b] at the input point and the
    trace [tr] from the engine. *)
Definition reaches_trace {engine : Engine} (X : Xdict)
  (maginput : option pydict) (status : bool) (out0 : list string) (b : R)
  (tr : trace_field_line2_output) (out2 : list string) : Prop :=
  exists lstar out1,
    make_lstar X maginput status out0 = (inr lstar, out1) /\
    getitem0 (lstar_blocal lstar) = inr b /\
    trace_field_line X maginput 1 status out1 = (inr tr, out2).

(** The interpolated [closed_line_engine] trace, written as polynomials. *)
Definition closed_line : field_line :=
  {| S_ := seq 0 8;
     fB := fun s => (s - 2) * (s - 11 / 2);
     fx := fun _ => 2;
     fy := fun _ => 0;
     fz := fun s => 7 / 2 - s;
     inputB := 100 |}.

Definition resample_4 : kwargs :=
  {| Erest := 511; R0 := 1; STATUS_FLAG := false; interpNum := 4 |}.



(** ** Further vocabulary *)

(** The third helper of the source file.  The exponent [-1/2] is applied
    to the square root, and the rest energy passed to [beta] is the literal
    511 whatever [Erest] is.  The power of a positive real is [Rpower]. *)
Definition gamma (Ek Erest : R) : R :=
  Rpower (sqrt (1 - beta Ek 511 ^ 2)) (- 1 / 2).

(** The keyword arguments with another stop radius. *)
Definition with_R0 (kw : kwargs) (r : R) : kwargs :=
  {| Erest := Erest kw; R0 := r; STATUS_FLAG := STATUS_FLAG kw;
     interpNum := interpNum kw |}.

(** The exception scipy raises when the bracket shows no sign change, and
    the short form of the wrapper's own error. *)
Definition sign_error : exn := ValueError [AStr sign_msg].

Definition below_ground_short : exn :=
  ValueError [AStr "Mirror point below the ground!"].

(** The sum of ds / (c sqrt(1 - |B/Bm|)) that is left of the bounce
    integral when the factor beta is taken out. *)
Definition path_integral (fLine : field_line) (sLow sHigh : R) (num : Z) : R :=
  2 * np_sum
        (map (fun i =>
                arc_increment fLine (resample sLow sHigh num) i
                / (c * sqrt (1 - Rabs ((fB fLine (resample sLow sHigh num i)
                                         + inputB fLine) / inputB fLine))))
           (interior num)).


Definition resample_0 : kwargs :=
  {| Erest := 511; R0 := 1; STATUS_FLAG := false; interpNum := 0 |}.

(** A root-finder that finds no sign change, and one that does not
    converge. *)
Definition same_sign_scipy : SciPy :=
  {| interp1d_cubic := cubic_through_four;
     brentq := fun _ _ _ => inl sign_error |}.

Definition convergence_error : exn :=
  OtherError "RuntimeError" [AStr "Failed to converge after 100 iterations."].

Definition diverging_scipy : SciPy :=
  {| interp1d_cubic := cubic_through_four;
     brentq := fun _ _ _ => inl convergence_error |}.

(** The numbers of a list or of a numpy array. *)
Definition sequence_items (v : pyvalue) : option (list R) :=
  match v with
  | PyList xs | NdArray xs => Some xs
  | _ => None
  end.

(** [key in orderedKeys] *)
Definition model_key (key : string) : bool :=
  existsb (String.eqb key) orderedKeys.

(** The row the array branch builds for a model parameter from a
    dictionary of sequences and [n] time steps: the first [n] numbers under
    the key, and [n] sentinels when the key is absent. *)
Definition matrix_row (d : pydict) (n : nat) (key : string) : list R :=
  match dict_get d key with
  | inr v =>
      match sequence_items v with
      | Some xs => firstn n xs
      | None => repeat (-9999) n
      end
  | inl _ => repeat (-9999) n
  end.

(** Every model parameter present in the dictionary holds a sequence. *)
Definition model_keys_hold_sequences (d : pydict) : Prop :=
  forall key v,
    In key orderedKeys -> dict_get d key = inr v -> is_sequence v = true.

(** ... of at least [n] numbers. *)
Definition sequences_cover (d : pydict) (n : nat) : Prop :=
  forall key v,
    In key orderedKeys -> dict_get d key = inr v ->
    exists xs, sequence_items v = Some xs /\ (n <= List.length xs)%nat.

(** The TypeError of [_prepMagInput] itself. *)
Definition format_error : exn :=
  TypeError [AStr ("Model inputs are in an unrecognizable format." ++
                   " Try a dictionary of numpy arrays, lists, ints or floats")%string].

(** Dst and Kp as arrays over three time steps. *)
Definition three_step_inputs : pydict :=
  [("Dst", PyList [-30; -20; -10]); ("Kp", NdArray [40; 30; 20; 10])].

(** Two time steps of Dst. *)
Definition two_step_inputs : pydict := [("Dst", PyList [-30; -20])].

(** Kp and Dst with a comment and a source tag. *)
Definition annotated_inputs : pydict :=
  [("Kp", PyInt 40); ("comment", PyStr "quiet day"); ("Dst", PyFloat (-30));
   ("source", PyNone)].

(** ** The time and location normaliser

    [_prepTimeLoc] and the marshalling part of [make_lstar], on explicit
    Python values.  [datetime] objects and [tm_yday] follow the standard
    library; [dateutil.parser.parse] is a parameter. *)

Module Input.

Record datetime : Type := {
  year : Z; month : Z; day : Z;
  hour : Z; minute : Z; second : Z; microsecond : Z
}.

Definition is_leap (y : Z) : bool :=
  ((y mod 4 =? 0) && (negb (y mod 100 =? 0) || (y mod 400 =? 0)))%Z%bool.

Definition days_in_month (y m : Z) : Z :=
  if (m =? 2)%Z then (if is_leap y then 29 else 28)%Z
  else if ((m =? 4) || (m =? 6) || (m =? 9) || (m =? 11))%Z%bool then 30%Z
  else 31%Z.

(** The number of days of the year that precede the first of month [m]. *)
Definition days_before_month (y m : Z) : Z :=
  fold_right Z.add 0%Z
    (map (fun k => days_in_month y (Z.of_nat k)) (seq 1 (Z.to_nat m - 1))).

(** [t.timetuple().tm_yday] *)
Definition tm_yday (t : datetime) : Z :=
  (days_before_month (year t) (month t) + day t)%Z.

(** The invariant of every [datetime] object. *)
Definition well_formed (t : datetime) : Prop :=
  (1 <= year t <= 9999 /\ 1 <= month t <= 12 /\
   1 <= day t <= days_in_month (year t) (month t) /\
   0 <= hour t < 24 /\ 0 <= minute t < 60 /\ 0 <= second t < 60 /\
   0 <= microsecond t < 1000000)%Z.

(** The values found in an [X] dictionary: a datetime, a string, a Python
    number, a numpy scalar, [None], or a list or numpy array of such
    values. *)
Inductive seqkind : Type := KList | KArray.

#[warnings="-register-all"] Inductive xvalue : Type :=
| XDate (t : datetime)
| XStr (s : string)
| XNum (x : R)
| XNp (x : R)
| XNone
| XSeq (kind : seqkind) (items : list xvalue).

Definition xdict : Type := list (string * xvalue).

(** [X[key]] *)
Definition x_get (X : xdict) (key : string) : result xvalue :=
  match find (fun kv => String.eqb key (fst kv)) X with
  | Some kv => inr (snd kv)
  | None => inl (KeyError [AStr key])
  end.

(** [X[key] = v]: an existing key keeps its place. *)
Fixpoint x_set (X : xdict) (key : string) (v : xvalue) : xdict :=
  match X with
  | [] => [(key, v)]
  | (k, w) :: rest =>
      if String.eqb key k then (k, v) :: rest else (k, w) :: x_set rest key v
  end.

(** [type(v) != list and type(v) != np.ndarray] is false *)
Definition is_seq (v : xvalue) : bool :=
  match v with
  | XSeq _ _ => true
  | _ => false
  end.

(** What [np.array] makes of a value: lists become arrays at every depth,
    and numbers numpy scalars. *)
Fixpoint as_array (v : xvalue) : xvalue :=
  match v with
  | XSeq _ items => XSeq KArray (map as_array items)
  | XNum x => XNp x
  | _ => v
  end.

(** The number a value converts to through [__float__]: a number, or a
    numpy array that holds exactly one such value.  Text is never taken for
    a number here, also inside an array. *)
Fixpoint sole_number (v : xvalue) : option R :=
  match v with
  | XNum x | XNp x => Some x
  | XSeq KArray [item] => sole_number item
  | _ => None
  end.

(** [ctypes.c_double(v)], and the assignment of [v] to a double slot. *)
Definition c_double (v : xvalue) : result R :=
  match sole_number v with
  | Some x => inr x
  | None => inl (TypeError [AStr "must be real number"])
  end.

(** [v[i]] for a non-negative index. *)
Definition x_getitem (v : xvalue) (i : nat) : result xvalue :=
  match v with
  | XSeq _ items =>
      match nth_error items i with
      | Some item => inr item
      | None => inl (IndexError [AStr "index out of range"])
      end
  | XStr s =>
      match String.get i s with
      | Some ch => inr (XStr (String ch EmptyString))
      | None => inl (IndexError [AStr "string index out of range"])
      end
  | XNp _ => inl (IndexError [AStr "invalid index to scalar variable."])
  | _ => inl (TypeError [AStr "object is not subscriptable"])
  end.

(** [len(v)] *)
Definition x_len (v : xvalue) : result nat :=
  match v with
  | XSeq _ items => inr (List.length items)
  | XStr s => inr (String.length s)
  | _ => inl (TypeError [AStr "object has no len()"])
  end.

(** What [_prepTimeLoc] returns: iyear, idoy, ut, x1, x2, x3. *)
Record timeloc : Type := {
  iyear : Z; idoy : Z; ut : R; x1 : R; x2 : R; x3 : R
}.

(** The arrays [make_lstar] hands to the engine, with the times they were
    filled from. *)
Record lstar_arrays : Type := {
  times : list xvalue;
  a_iyear : list Z; a_idoy : list Z;
  a_ut : list R; a_x1 : list R; a_x2 : list R; a_x3 : list R
}.

(** [3600*t.hour + 60*t.minute + t.second] *)
Definition seconds_of_day (t : datetime) : Z :=
  (3600 * hour t + 60 * minute t + second t)%Z.

Section Parser.
Variable parse : string -> result datetime.

(** [dateutil.parser.parse(v)]: only strings are parsed. *)
Definition parse_any (v : xvalue) : result datetime :=
  match v with
  | XStr s => parse s
  | _ => inl (TypeError [AStr "Parser must be a string or character stream"])
  end.

Definition _prepTimeLoc (Xloc : xdict) : result timeloc :=
  dateTime <-? x_get Xloc "dateTime" ;;
  t <-? match dateTime with
        | XDate t => inr t
        | _ => parse_any dateTime
        end ;;
  v1 <-? x_get Xloc "x1" ;;
  x1 <-? c_double v1 ;;
  v2 <-? x_get Xloc "x2" ;;
  x2 <-? c_double v2 ;;
  v3 <-? x_get Xloc "x3" ;;
  x3 <-? c_double v3 ;;
  inr {| iyear := year t; idoy := tm_yday t;
         ut := IZR (seconds_of_day t); x1 := x1; x2 := x2; x3 := x3 |}.

(** [make_lstar], the copy [X2] of [X]: a single point is wrapped into
    arrays of size 1. *)
Definition promote (X : xdict) : result xdict :=
  dateTime <-? x_get X "dateTime" ;;
  if is_seq dateTime then inr X
  else
    let X2 := x_set X "dateTime" (as_array (XSeq KList [dateTime])) in
    v1 <-? x_get X2 "x1" ;;
    let X2 := x_set X2 "x1" (as_array (XSeq KList [v1])) in
    v2 <-? x_get X2 "x2" ;;
    let X2 := x_set X2 "x2" (as_array (XSeq KList [v2])) in
    v3 <-? x_get X2 "x3" ;;
    inr (x_set X2 "x3" (as_array (XSeq KList [v3]))).

(** [nTimePy = len(X2['dateTime'])] *)
Definition lstar_count (X : xdict) : result nat :=
  X2 <-? promote X ;;
  dateTime <-? x_get X2 "dateTime" ;;
  x_len dateTime.

(** Sequential [t[i] = parse(v[i])]. *)
Fixpoint parse_all (items : list xvalue) : result (list xvalue) :=
  match items with
  | [] => inr []
  | v :: rest =>
      t <-? parse_any v ;;
      ts <-? parse_all rest ;;
      inr (XDate t :: ts)
  end.

(** The conversion of the times: decided by the type of the first one. *)
Definition lstar_parse (X : xdict) : result lstar_arrays :=
  X2 <-? promote X ;;
  dateTime <-? x_get X2 "dateTime" ;;
  first <-? x_getitem dateTime 0 ;;
  t <-? match first, dateTime with
        | XDate _, XSeq _ items => inr items
        | _, XSeq _ items => parse_all items
        | _, _ => inl (TypeError [AStr "object is not subscriptable"])
        end ;;
  inr {| times := t; a_iyear := []; a_idoy := [];
         a_ut := []; a_x1 := []; a_x2 := []; a_x3 := [] |}.

(** One turn of the filling loop, for the time index [dt]. *)
Definition fill_point (X2 : xdict) (dt : nat) (a : lstar_arrays)
  : result lstar_arrays :=
  t <-? match nth_error (times a) dt with
        | Some (XDate t) => inr t
        | Some _ =>
            inl (OtherError "AttributeError"
                   [AStr "object has no attribute 'year'"])
        | None => inl (IndexError [AStr "list index out of range"])
        end ;;
  c1 <-? x_get X2 "x1" ;; v1 <-? x_getitem c1 dt ;; x1 <-? c_double v1 ;;
  c2 <-? x_get X2 "x2" ;; v2 <-? x_getitem c2 dt ;; x2 <-? c_double v2 ;;
  c3 <-? x_get X2 "x3" ;; v3 <-? x_getitem c3 dt ;; x3 <-? c_double v3 ;;
  inr {| times := times a;
         a_iyear := a_iyear a ++ [year t];
         a_idoy := a_idoy a ++ [tm_yday t];
         a_ut := a_ut a ++ [IZR (seconds_of_day t)];
         a_x1 := a_x1 a ++ [x1];
         a_x2 := a_x2 a ++ [x2];
         a_x3 := a_x3 a ++ [x3] |}.

(** The filling of iyear, idoy, ut, x1, x2 and x3, in time order. *)
Definition lstar_fill (X : xdict) (a : lstar_arrays) : result lstar_arrays :=
  X2 <-? promote X ;;
  for_each (seq 0 (List.length (times a))) (fill_point X2) a.

End Parser.

End Input.

(** The wrapper around a date parser and the two compiled routines used by
    the pipeline. *)
Definition wrapper_engine (parse : string -> result Input.datetime)
  (make_lstar1 : Input.lstar_arrays -> c_maginput -> list R)
  (trace_field_line2_1 :
     Input.timeloc -> c_maginput -> R -> list (R * R * R) * list R * Z)
  : Engine :=
  {| Xdict := Input.xdict;
     lstar_args := Input.lstar_arrays;
     trace_args := Input.timeloc;
     lstar_count := Input.lstar_count;
     lstar_parse := Input.lstar_parse parse;
     lstar_fill := Input.lstar_fill;
     make_lstar1_ := make_lstar1;
     _prepTimeLoc := Input._prepTimeLoc parse;
     trace_field_line2_1_ := trace_field_line2_1 |}.

(** ** Sample inputs of the normaliser *)

Definition new_year : Input.datetime :=
  {| Input.year := 2015; Input.month := 1; Input.day := 1;
     Input.hour := 0; Input.minute := 0; Input.second := 0;
     Input.microsecond := 0 |}.

Definition leap_day_evening : Input.datetime :=
  {| Input.year := 2016; Input.month := 2; Input.day := 29;
     Input.hour := 18; Input.minute := 30; Input.second := 15;
     Input.microsecond := 250000 |}.

(** A parser that knows one date. *)
Definition one_date_parser (s : string) : result Input.datetime :=
  if String.eqb s "2015-01-01T00:00:00" then inr new_year
  else inl (ValueError [AStr "Unknown string format"]).

(** An engine stub: the field is the year of each time, and there is no
    trace. *)
Definition years_engine : Engine :=
  wrapper_engine one_date_parser
    (fun a _ => map IZR (Input.a_iyear a))
    (fun _ _ _ => ([], [], (-9999)%Z)).

(** One point, given as scalars; two points, given as sequences with a
    spare x3; two points with a single x1. *)
Definition single_point : Input.xdict :=
  [("dateTime", Input.XStr "2015-01-01T00:00:00");
   ("x1", Input.XNum 651); ("x2", Input.XNum 63); ("x3", Input.XNum 15)].

Definition two_points : Input.xdict :=
  [("x1", Input.XSeq Input.KList [Input.XNum 651; Input.XNum 652]);
   ("x2", Input.XSeq Input.KArray [Input.XNp 63; Input.XNp 64]);
   ("x3", Input.XSeq Input.KList [Input.XNum 15; Input.XNum 16; Input.XNum 17]);
   ("dateTime", Input.XSeq Input.KList
                  [Input.XDate new_year; Input.XDate leap_day_evening])].

Definition two_points_one_x1 : Input.xdict :=
  [("x1", Input.XSeq Input.KList [Input.XNum 651]);
   ("x2", Input.XSeq Input.KArray [Input.XNp 63; Input.XNp 64]);
   ("x3", Input.XSeq Input.KList [Input.XNum 15; Input.XNum 16]);
   ("dateTime", Input.XSeq Input.KList
                  [Input.XDate new_year; Input.XDate leap_day_evening])].

(** The items of a sequence convert, one by one, to the given numbers. *)
Definition holds_numbers (v : Input.xvalue) (xs : list R) : Prop :=
  exists kind items,
    v = Input.XSeq kind items /\
    Forall2 (fun item x => Input.sole_number item = Some x) items xs.

(** The arrays filled from the given times and coordinates. *)
Definition arrays_of (ts : list Input.datetime) (xs1 xs2 xs3 : list R)
  : Input.lstar_arrays :=
  {| Input.times := map Input.XDate ts;
     Input.a_iyear := map Input.year ts;
     Input.a_idoy := map Input.tm_yday ts;
     Input.a_ut := map (fun t => IZR (Input.seconds_of_day t)) ts;
     Input.a_x1 := xs1; Input.a_x2 := xs2; Input.a_x3 := xs3 |}.

(** What [make_lstar] has printed when it returns. *)
Definition lstar_output (n : nat) (status : bool) (out : list string)
  : list string :=
  let out :=
    if (50000 <? Z.of_nat n)%Z
    then out ++ [("Warning, more than 50,000 data points fed to IRBEM. " ++
                  "It may crash without warning!")%string]
    else out in
  if status then out ++ ["Running IRBEM-LIB make_lstar"] else out.

(** The arrays after [j] turns of the filling loop of [make_lstar]. *)
Definition arrays_after (j : nat) (ts : list Input.datetime)
  (xs1 xs2 xs3 : list R) : Input.lstar_arrays :=
  {| Input.times := map Input.XDate ts;
     Input.a_iyear := map Input.year (firstn j ts);
     Input.a_idoy := map Input.tm_yday (firstn j ts);
     Input.a_ut := map (fun t => IZR (Input.seconds_of_day t)) (firstn j ts);
     Input.a_x1 := firstn j xs1;
     Input.a_x2 := firstn j xs2;
     Input.a_x3 := firstn j xs3 |}.

(** The same arrays over another list of times. *)
Definition with_times (T : list Input.xvalue) (a : Input.lstar_arrays)
  : Input.lstar_arrays :=
  {| Input.times := T;
     Input.a_iyear := Input.a_iyear a; Input.a_idoy := Input.a_idoy a;
     Input.a_ut := Input.a_ut a; Input.a_x1 := Input.a_x1 a;
     Input.a_x2 := Input.a_x2 a; Input.a_x3 := Input.a_x3 a |}.

(** [type(v) is datetime.datetime] *)
Definition is_date (v : Input.xvalue) : bool :=
  match v with
  | Input.XDate _ => true
  | _ => false
  end.

(** A date followed by a string, with coordinates for both. *)
Definition date_then_string : Input.xdict :=
  [("dateTime", Input.XSeq Input.KList
                  [Input.XDate new_year; Input.XStr "2015-01-01T00:00:00"]);
   ("x1", Input.XSeq Input.KList [Input.XNum 651; Input.XNum 652]);
   ("x2", Input.XSeq Input.KList [Input.XNum 63; Input.XNum 64]);
   ("x3", Input.XSeq Input.KList [Input.XNum 15; Input.XNum 16])].

(** ** Facts about [_prepMagInput] *)

Lemma key_in_dict_get (d : pydict) (k : string) :
  key_in k d = true -> exists k' v, In (k', v) d /\ dict_get d k = inr v.
Proof.
  unfold key_in, keys, dict_get.
  induction d as [|[k1 v1] d IH]; simpl; [discriminate|].
  destruct (String.eqb k k1) eqn:Hk; simpl.
  - intros _. exists k1, v1. split; [now left | reflexivity].
  - intros H. destruct (IH H) as (k' & v & Hin & Hget).
    exists k', v. split; [now right | exact Hget].
Qed.

Lemma key_not_in_dict_get (d : pydict) (k : string) :
  key_in k d = false -> dict_get d k = inl (KeyError [AStr k]).
Proof.
  unfold key_in, keys, dict_get.
  induction d as [|[k1 v1] d IH]; simpl; [reflexivity|].
  destruct (String.eqb k k1); simpl; [discriminate|].
  intros H. specialize (IH H).
  destruct (find _ d); [discriminate | reflexivity].
Qed.







Lemma list_set_length {A : Type} (i : nat) (v : A) (l : list A) :
  List.length (list_set i v l) = List.length l.
Proof.
  revert i. induction l as [|h t IH]; intros [|j]; simpl; auto.
Qed.

Lemma mat_set_shape (i dt : nat) (v : R) (m : list (list R)) (rows cols : nat) :
  List.length m = rows /\ Forall (fun row => List.length row = cols) m ->
  List.length (mat_set i dt v m) = rows /\
  Forall (fun row => List.length row = cols) (mat_set i dt v m).
Proof.
  revert i rows. induction m as [|row t IH]; intros i rows [Hlen Hall].
  - destruct i; simpl; split; assumption.
  - apply Forall_cons_iff in Hall. destruct Hall as [Hrow Ht].
    destruct i as [|j]; simpl in *.
    + split; [assumption|].
      constructor; [now rewrite list_set_length | assumption].
    + destruct (IH j (List.length t) (conj eq_refl Ht)) as [Hl Hf].
      split; [now rewrite Hl | now constructor].
Qed.

Lemma for_each_invariant {I S : Type} (P : S -> Prop) (xs : list I)
  (body : I -> S -> result S) (s s' : S) :
  (forall i a b, body i a = inr b -> P a -> P b) ->
  P s -> for_each xs body s = inr s' -> P s'.
Proof.
  intros Hbody. revert s.
  induction xs as [|i xs IH]; intros s Hs H; simpl in H.
  - inversion H; subst; assumption.
  - destruct (body i s) as [e|a] eqn:Hb; [discriminate|].
    simpl in H. exact (IH a (Hbody i s a Hb Hs) H).
Qed.

Lemma fill_matrix_entry_inr (d : pydict) (i dt : nat) (m m' : list (list R)) :
  fill_matrix_entry d i dt m = inr m' -> exists x, m' = mat_set i dt x m.
Proof.
  unfold fill_matrix_entry.
  destruct (key_in _ d).
  - destruct (dict_get d _) as [e|col]; [discriminate|]. simpl.
    destruct (getitem col dt) as [e|item]; [discriminate|]. simpl.
    destruct (to_c_double item) as [e|x]; [discriminate|]. simpl.
    intros H. inversion H. now exists x.
  - intros H. inversion H. now eexists.
Qed.

(** In the array branch the matrix has 25 rows and as many columns as the
    first key has characters, whatever the length of the sequences. *)
Lemma prepMagInput_matrix_shape (key0 : string) (val0 : pyvalue)
  (rest : pydict) (m : list (list R)) :
  is_sequence val0 = true ->
  _prepMagInput (Some ((key0, val0) :: rest)) = inr (MagMat m) ->
  List.length m = 25%nat /\
  Forall (fun row => List.length row = String.length key0) m.
Proof.
  unfold is_sequence, _prepMagInput. intros ->.
  destruct (for_each _ _ _) as [e|m0] eqn:Hloop; [discriminate|].
  simpl. intros H. inversion H; subst m0.
  refine (for_each_invariant
            (fun a => List.length a = 25%nat /\
                      Forall (fun row => List.length row = String.length key0) a)
            _ _ _ _ _ _ Hloop).
  - intros i a b Hinner Ha.
    refine (for_each_invariant
              (fun a => List.length a = 25%nat /\
                        Forall (fun row => List.length row = String.length key0) a)
              _ _ _ _ _ Ha Hinner).
    intros dt a1 b1 Hentry Ha1.
    destruct (fill_matrix_entry_inr _ _ _ _ _ Hentry) as (x & ->).
    now apply mat_set_shape.
  - split; [reflexivity|].
    apply Forall_forall. intros row Hrow.
    apply repeat_spec in Hrow. subst row. apply repeat_length.
Qed.

(** C4: on the three-step input [{'Kp': [10, 20, 30]}] the matrix gets one
    column per character of the first key, that is two, and not one per
    supplied time step: the third step is dropped. *)
Theorem prepMagInput_columns_follow_key_length :
  _prepMagInput (Some three_point_inputs)
  = inr (MagMat ([10; 20] :: repeat [-9999; -9999] 16 ++ repeat [0; 0] 8)) /\
  (forall m, _prepMagInput (Some three_point_inputs) = inr (MagMat m) ->
             List.length m = 25%nat /\
             forall row, In row m -> List.length row = 2%nat) /\
  String.length "Kp" = 2%nat /\
  (List.length [10; 20; 30] = 3)%nat.
Proof.
  split; [reflexivity|]. split; [|split; reflexivity].
  intros m Hm.
  destruct (prepMagInput_matrix_shape "Kp" (PyList [10; 20; 30]) [] m
              eq_refl Hm) as [Hrows Hcols].
  split; [exact Hrows|].
  intros row Hrow. rewrite Forall_forall in Hcols. exact (Hcols row Hrow).
Qed.

(** C9, counterexample: a dictionary that mixes a list with a numpy scalar
    is neither uniformly scalar nor uniformly a sequence, and
    [_prepMagInput] raises an IndexError on it, not a TypeError. *)
Lemma prepMagInput_mixed_not_TypeError :
  uniformly_scalar mixed_inputs = false /\
  uniformly_sequence mixed_inputs = false /\
  _prepMagInput (Some mixed_inputs)
  = inl (IndexError [AStr "invalid index to scalar variable."]) /\
  (forall args, _prepMagInput (Some mixed_inputs) <> inl (TypeError args)).
Proof.
  repeat split; try reflexivity.
  intros args H.
  change (_prepMagInput (Some mixed_inputs))
    with (@inl exn c_maginput
            (IndexError [AStr "invalid index to scalar variable."])) in H.
  discriminate H.
Qed.

(** C9, amended: when the first value of the dictionary (in insertion
    order) is neither a list or ndarray nor an int, float or np.float64,
    [_prepMagInput] raises its TypeError; the values after the first are
    not inspected. *)
Theorem prepMagInput_unrecognised_first_value
  (key0 : string) (val0 : pyvalue) (rest : pydict) :
  is_sequence val0 = false ->
  is_scalar_numeric val0 = false ->
  _prepMagInput (Some ((key0, val0) :: rest))
  = inl (TypeError [AStr ("Model inputs are in an unrecognizable format." ++
           " Try a dictionary of numpy arrays, lists, ints or floats")%string]).
Proof.
  unfold is_sequence, is_scalar_numeric, _prepMagInput.
  intros -> ->. reflexivity.
Qed.

Lemma prepMagInput_unrecognised_first_value_witness :
  exists args, _prepMagInput (Some [("Kp", PyStr "4"); ("Dst", PyInt 3)])
               = inl (TypeError args).
Proof.
  eexists.
  apply (prepMagInput_unrecognised_first_value "Kp" (PyStr "4")
           [("Dst", PyInt 3)]); reflexivity.
Defined.

(** ** Facts about the numpy primitives *)

Lemma firstn_seq_le (k start len : nat) :
  (k <= len)%nat -> firstn k (seq start len) = seq start k.
Proof.
  revert start len.
  induction k as [|k IH]; intros start len Hk; [reflexivity|].
  destruct len as [|len]; [lia|].
  simpl. f_equal. apply IH. lia.
Qed.

Lemma skipn_one_seq (start len : nat) :
  skipn 1 (seq start len) = seq (S start) (len - 1).
Proof.
  destruct len as [|len]; simpl; [reflexivity|].
  now rewrite Nat.sub_0_r.
Qed.

Lemma py_slice_map {A B : Type} (f : A -> B) (start stop : Z) (a : list A) :
  py_slice start stop (map f a) = map f (py_slice start stop a).
Proof.
  unfold py_slice. rewrite length_map.
  now rewrite skipn_map, firstn_map.
Qed.

(** [a[1:-1]] keeps the interior indices. *)
Lemma interior_slice {A : Type} (F : nat -> A) (n : nat) :
  py_slice 1 (-1) (map F (seq 0 n)) = map F (seq 1 (n - 2)).
Proof.
  rewrite py_slice_map. f_equal.
  unfold py_slice, slice_bound. rewrite length_seq. simpl.
  destruct n as [|[|n]]; try reflexivity.
  replace (Z.to_nat (Z.min 1 (Z.of_nat (S (S n))))) with 1%nat by lia.
  replace (Z.to_nat (Z.max 0 (Z.of_nat (S (S n)) + -1))) with (S n) by lia.
  rewrite skipn_one_seq.
  rewrite firstn_seq_le by lia.
  reflexivity.
Qed.

Lemma map2_map {A B C D : Type} (f : B -> C -> D) (g : A -> B) (h : A -> C)
  (a : list A) :
  map2 f (map g a) (map h a) = map (fun x => f (g x) (h x)) a.
Proof.
  induction a as [|x a IH]; simpl; [reflexivity|]. now rewrite IH.
Qed.

Lemma convolve_full_diff (g : nat -> R) (len start : nat) :
  convolve_full (map g (seq start (S len))) [-1; 1]
  = (g start * -1 + 0)
    :: map (fun i => g i * 1 + (g (S i) * -1 + 0)) (seq start len)
    ++ [g (start + len)%nat * 1].
Proof.
  revert start.
  induction len as [|len IH]; intros start.
  - simpl. now rewrite Nat.add_0_r.
  - change (seq start (S (S len))) with (start :: seq (S start) (S len)).
    cbn [map convolve_full]. rewrite IH. cbn [map add_pad seq app].
    replace (S start + len)%nat with (start + S len)%nat by lia.
    reflexivity.
Qed.

Lemma convolve_same_diff (g : nat -> R) (n : nat) :
  (2 <= n)%nat ->
  np_convolve_same (map g (seq 0 n)) [-1; 1]
  = inr (map (kernel_diff g) (seq 0 n)).
Proof.
  intros Hn. destruct n as [|[|len]]; try lia.
  unfold np_convolve_same.
  rewrite length_map, length_seq.
  cbn [List.length Nat.ltb Nat.leb Nat.sub Nat.div Nat.divmod fst skipn].
  change (map g (seq 0 (S (S len)))) with (g O :: map g (seq 1 (S len))) at 1.
  cbv iota beta.
  rewrite length_map, length_seq.
  rewrite convolve_full_diff.
  change (seq 0 (S (S len))) with (0%nat :: seq 1 (S len)).
  rewrite firstn_cons.
  cbn [map kernel_diff]. do 2 f_equal.
  rewrite firstn_app, length_map, length_seq.
  replace (S len - S len)%nat with 0%nat by lia.
  rewrite firstn_O, app_nil_r.
  rewrite firstn_all2 by (rewrite length_map, length_seq; lia).
  rewrite <- (seq_shift (S len) 0), map_map. reflexivity.
Qed.

Lemma linspace_samples (start stop : R) (num : Z) :
  (2 <= num)%Z ->
  np_linspace start stop num
  = inr (map (fun i => INR i * ((stop - start) / IZR (num - 1)) + start)
           (seq 0 (Z.to_nat num))).
Proof.
  intros Hnum. unfold np_linspace.
  replace (num <? 0)%Z with false by (symmetry; apply Z.ltb_ge; lia).
  replace (0 <? num - 1)%Z with true by (symmetry; apply Z.ltb_lt; lia).
  now rewrite !map_map.
Qed.


(** ** Facts about the interpreter monad *)

Lemma bind_inr {A B : Type} (m : Py A) (k : A -> Py B) (out out' : list string)
  (b : B) :
  bind m k out = (inr b, out') ->
  exists a out1, m out = (inr a, out1) /\ k a out1 = (inr b, out').
Proof.
  unfold bind. destruct (m out) as [[e|a] out1]; [discriminate|].
  intros H. now exists a, out1.
Qed.

Lemma lift_inr {A : Type} (r : result A) (out out' : list string) (a : A) :
  lift r out = (inr a, out') -> r = inr a /\ out' = out.
Proof. unfold lift. intros H. now inversion H. Qed.

Lemma when_print (b : bool) (line : string) (out : list string) :
  when b (print line) out = (inr tt, if b then out ++ [line] else out).
Proof. now destruct b. Qed.

Lemma local_inr (name : string) (v : option R) (out out' : list string) (x : R) :
  local name v out = (inr x, out') -> v = Some x /\ out' = out.
Proof.
  destruct v as [y|]; unfold local, ret, raise; intros H; now inversion H.
Qed.

Section WrapperFacts.
Context {engine : Engine} {scipy : SciPy}.

(** What the [try] block leaves behind when both locals are bound. *)
Lemma try_brackets_bound (fLine : field_line) (sLow sHigh : R)
  (pending : option exn) :
  try_brackets fLine = (Some sLow, Some sHigh, pending) ->
  brentq (fB fLine) 0 (INR (List.length (S_ fLine)) / 2) = inr sLow /\
  brentq (fB fLine) (INR (List.length (S_ fLine)) / 2)
    (INR (List.length (S_ fLine)) - 1) = inr sHigh /\
  pending = None.
Proof.
  unfold try_brackets.
  destruct (brentq (fB fLine) 0 _) as [e|s]; [discriminate|].
  destruct (brentq (fB fLine) _ _) as [e|t]; [discriminate|].
  intros H. inversion H. auto.
Qed.

(** The numeric tail of [bounce_period] on at least one sample. *)
Lemma bounce_sum_formula (E : R) (fLine : field_line) (Erest sLow sHigh : R)
  (num : Z) (sInterp dx dy dz : list R) :
  (0 < num)%Z ->
  np_linspace sLow sHigh num = inr sInterp ->
  np_convolve_same (map (fx fLine) sInterp) [-1; 1] = inr dx ->
  np_convolve_same (map (fy fLine) sInterp) [-1; 1] = inr dy ->
  np_convolve_same (map (fz fLine) sInterp) [-1; 1] = inr dz ->
  bounce_sum E fLine Erest
    (map (fun q => 6371000 * sqrt q)
       (map2 Rplus (map2 Rplus (map (fun d => d ^ 2) dx)
                      (map (fun d => d ^ 2) dy))
          (map (fun d => d ^ 2) dz)))
    (map (fun s => fB fLine s + inputB fLine) sInterp)
  = bounce_integral E Erest fLine sLow sHigh num.
Proof.
  intros Hnum Hs Hx Hy Hz.
  destruct (Z.eq_dec num 1) as [->|Hne].
  - (* a single sample: the operands of the convolution are swapped *)
    cbv [np_linspace Z.ltb Z.compare Z.sub Z.add Z.opp Z.pos_sub Z.to_nat
         Pos.to_nat Pos.iter_op seq map] in Hs.
    inversion Hs; subst sInterp.
    inversion Hx; inversion Hy; inversion Hz.
    reflexivity.
  - assert (H2 : (2 <= num)%Z) by lia.
    rewrite (linspace_samples _ _ _ H2) in Hs. inversion Hs; subst sInterp.
    rewrite map_map in Hx, Hy, Hz.
    rewrite convolve_same_diff in Hx, Hy, Hz by lia.
    inversion Hx; inversion Hy; inversion Hz.
    unfold bounce_sum, bounce_integral, interior.
    repeat (rewrite map_map || rewrite map2_map).
    rewrite !interior_slice, map2_map.
    do 2 f_equal. apply map_ext_in. intros i Hi.
    apply in_seq in Hi. destruct i as [|j]; [lia|].
    unfold arc_increment, resample, kernel_diff.
    replace (S j - 1)%nat with j by lia.
    f_equal.
    + do 2 f_equal. rewrite !(Rplus_comm sLow). ring.
    + now rewrite (Rplus_comm sLow).
Qed.

Lemma linspace_nonempty (start stop : R) (num : Z) :
  (0 < num)%Z ->
  exists s0 rest, np_linspace start stop num = inr (s0 :: rest).
Proof.
  intros Hnum. unfold np_linspace.
  replace (num <? 0)%Z with false by (symmetry; apply Z.ltb_ge; lia).
  destruct (Z.to_nat num) as [|n] eqn:Hn; [lia|].
  destruct (0 <? num - 1)%Z; simpl; eexists; eexists; reflexivity.
Qed.

Lemma convolve_same_total (x : R) (a : list R) :
  exists d, np_convolve_same (x :: a) [-1; 1] = inr d.
Proof.
  unfold np_convolve_same.
  match goal with
  | |- context [if ?b then _ else _] => destruct b
  end; eexists; reflexivity.
Qed.

(** Once the line is interpolated and both brackets are found,
    [bounce_period] runs to its end for every positive resample count. *)
Lemma bounce_period_runs (X : Xdict) (maginput : option pydict) (E : energy)
  (kw : kwargs) (out0 out1 : list string) (fLine : field_line)
  (sLow sHigh : R) :
  _interpolate_field_line X maginput (R0 kw) (STATUS_FLAG kw)
    (after_status kw "IRBEM: Calculating bounce periods" out0)
  = (inr fLine, out1) ->
  try_brackets fLine = (Some sLow, Some sHigh, None) ->
  (0 < interpNum kw)%Z ->
  bounce_period X maginput E kw out0
  = (inr (bounce_value E (Erest kw) fLine sLow sHigh (interpNum kw)),
     if (interpNum kw <? Z.of_nat (List.length (S_ fLine)))%Z
     then out1 ++ [density_warning] else out1).
Proof.
  intros Hint Htry Hnum.
  unfold bounce_period, bind. rewrite when_print.
  unfold after_status in Hint. rewrite Hint, Htry.
  cbn [except_ValueError ret]. rewrite when_print.
  fold density_warning. cbn [local ret].
  destruct (linspace_nonempty sLow sHigh _ Hnum) as (s0 & rest & Hs).
  unfold lift. rewrite Hs. cbn [map].
  destruct (convolve_same_total (fx fLine s0) (map (fx fLine) rest)) as (dx & Hx).
  destruct (convolve_same_total (fy fLine s0) (map (fy fLine) rest)) as (dy & Hy).
  destruct (convolve_same_total (fz fLine s0) (map (fz fLine) rest)) as (dz & Hz).
  rewrite Hx, Hy, Hz.
  change (fx fLine s0 :: map (fx fLine) rest)
    with (map (fx fLine) (s0 :: rest)) in Hx.
  change (fy fLine s0 :: map (fy fLine) rest)
    with (map (fy fLine) (s0 :: rest)) in Hy.
  change (fz fLine s0 :: map (fz fLine) rest)
    with (map (fz fLine) (s0 :: rest)) in Hz.
  change (fB fLine s0 + inputB fLine
          :: map (fun s => fB fLine s + inputB fLine) rest)
    with (map (fun s => fB fLine s + inputB fLine) (s0 :: rest)).
  destruct E as [E|Es]; unfold ret, bounce_value; do 2 f_equal.
  - f_equal. now apply bounce_sum_formula with (sInterp := s0 :: rest).
  - f_equal. apply map_ext. intros Ei.
    now apply bounce_sum_formula with (sInterp := s0 :: rest).
Qed.

(** What a successful run of [bounce_period] has gone through. *)
Lemma bounce_period_inr (X : Xdict) (maginput : option pydict) (E : energy)
  (kw : kwargs) (out0 out1 : list string) (Tb : bounce_result) :
  bounce_period X maginput E kw out0 = (inr Tb, out1) ->
  exists fLine out' sLow sHigh,
    _interpolate_field_line X maginput (R0 kw) (STATUS_FLAG kw)
      (after_status kw "IRBEM: Calculating bounce periods" out0)
    = (inr fLine, out') /\
    try_brackets fLine = (Some sLow, Some sHigh, None) /\
    (0 < interpNum kw)%Z.
Proof.
  intros H. unfold bounce_period in H.
  apply bind_inr in H as ([] & o1 & Hst & H).
  rewrite when_print in Hst. inversion Hst; subst o1.
  apply bind_inr in H as (fLine & o2 & Hint & H).
  destruct (try_brackets fLine) as [[startInd endInd] pending] eqn:Htry.
  apply bind_inr in H as ([] & o3 & _ & H).
  apply bind_inr in H as ([] & o4 & _ & H).
  apply bind_inr in H as (sLow & o5 & Hlo & H).
  apply local_inr in Hlo as [-> _].
  apply bind_inr in H as (sHigh & o6 & Hhi & H).
  apply local_inr in Hhi as [-> _].
  destruct (try_brackets_bound _ _ _ _ Htry) as (_ & _ & ->).
  apply bind_inr in H as (sInterp & o7 & Hs & H).
  apply lift_inr in Hs as [Hs _].
  apply bind_inr in H as (dx & o8 & Hx & _).
  apply lift_inr in Hx as [Hx _].
  exists fLine, o2, sLow, sHigh. repeat split; try assumption.
  destruct (Z_lt_le_dec 0 (interpNum kw)) as [Hpos|Hneg]; [exact Hpos|].
  exfalso. unfold np_linspace in Hs.
  destruct (interpNum kw <? 0)%Z eqn:Hlt; [discriminate|].
  apply Z.ltb_ge in Hlt.
  assert (H0 : interpNum kw = 0%Z) by lia.
  rewrite H0 in Hs. simpl in Hs. inversion Hs; subst sInterp.
  discriminate Hx.
Qed.

End WrapperFacts.

(** ** Facts about the synthetic collaborators *)

Lemma cubic_through_four_needs_four :
  @interp1d_needs_four_entries midpoint_scipy.
Proof.
  intros x y Hx. exists "x and y arrays must have at least 4 entries".
  simpl. unfold cubic_through_four.
  destruct x as [|x0 [|x1 [|x2 [|x3 x]]]]; try reflexivity.
  simpl in Hx. lia.
Qed.

(** On [closed_line_engine] the interpolator returns the polynomials of
    [closed_line]. *)
Lemma closed_line_interpolation (scipy : SciPy) (r0 : R) (out : list string) :
  @interp1d_cubic scipy = cubic_through_four ->
  exists f,
    @_interpolate_field_line closed_line_engine scipy tt None r0 false out
    = (inr f, out) /\
    S_ f = S_ closed_line /\
    inputB f = inputB closed_line /\
    (forall s, fB f s = fB closed_line s) /\
    (forall s, fx f s = fx closed_line s) /\
    (forall s, fy f s = fy closed_line s) /\
    (forall s, fz f s = fz closed_line s).
Proof.
  intros Hinterp. eexists. split.
  - unfold _interpolate_field_line. rewrite Hinterp. reflexivity.
  - repeat split; intros s; cbn; field.
Qed.


(** ** The entry points *)

Section Pipeline.
Context {engine : Engine} {scipy : SciPy}.



(** C1: a successful call of [bounce_period] with a scalar energy E
    returns twice the sum, over the interior points only (i = 1, ..., n-2)
    of the n = [interpNum] uniformly spaced arc parameters
    s_i = sLow + i (sHigh - sLow) / (n - 1) between the two mirror brackets,
    of the arc-length increment
    ds_i = 6371000 |(fx, fy, fz)(s_i) - (fx, fy, fz)(s_(i-1))| divided by the
    parallel velocity
    v_i = 300000000 sqrt(1 - (E/Erest + 1)^-2) sqrt(1 - |B_i / inputB|),
    B_i = fB(s_i) + inputB.  The quotients are those of the code where they
    are real numbers: for positive E and Erest, a non-zero mirror field and
    interior points strictly within the mirror field. *)
Theorem bounce_period_scalar_integral (X : Xdict) (maginput : option pydict)
  (E : R) (kw : kwargs) (out0 out1 : list string) (Tb : bounce_result) :
  bounce_period X maginput (EScalar E) kw out0 = (inr Tb, out1) ->
  exists fLine out' sLow sHigh,
    _interpolate_field_line X maginput (R0 kw) (STATUS_FLAG kw)
      (after_status kw "IRBEM: Calculating bounce periods" out0)
    = (inr fLine, out') /\
    brentq (fB fLine) 0 (INR (List.length (S_ fLine)) / 2) = inr sLow /\
    brentq (fB fLine) (INR (List.length (S_ fLine)) / 2)
      (INR (List.length (S_ fLine)) - 1) = inr sHigh /\
    (0 < interpNum kw)%Z /\
    let n := interpNum kw in
    let s := fun i : nat => sLow + INR i * ((sHigh - sLow) / IZR (n - 1)) in
    let ds := fun i : nat =>
      6371000 * sqrt ((fx fLine (s i) - fx fLine (s (i - 1)%nat)) ^ 2
                      + (fy fLine (s i) - fy fLine (s (i - 1)%nat)) ^ 2
                      + (fz fLine (s i) - fz fLine (s (i - 1)%nat)) ^ 2) in
    let B := fun i : nat => fB fLine (s i) + inputB fLine in
    let v := fun i : nat =>
      300000000 * sqrt (1 - / ((E / Erest kw + 1) ^ 2))
      * sqrt (1 - Rabs (B i / inputB fLine)) in
    (0 < E -> 0 < Erest kw -> inputB fLine <> 0 ->
     (forall i, (1 <= i <= Z.to_nat n - 2)%nat ->
                Rabs (B i / inputB fLine) < 1) ->
     Tb = TbScalar
            (2 * fold_right Rplus 0
                   (map (fun i => ds i / v i) (seq 1 (Z.to_nat n - 2))))).
Proof.
  intros H.
  destruct (bounce_period_inr _ _ _ _ _ _ _ H)
    as (fLine & out' & sLow & sHigh & Hint & Htry & Hnum).
  exists fLine, out', sLow, sHigh.
  destruct (try_brackets_bound _ _ _ _ Htry) as (Hlo & Hhi & _).
  repeat split; try assumption.
  intros n s ds B v _ _ _ _.
  rewrite (bounce_period_runs _ _ _ _ _ _ _ _ _ Hint Htry Hnum) in H.
  inversion H. reflexivity.
Qed.


Lemma interpolate_open_line (X : Xdict) (maginput : option pydict)
  (r0 : R) (status : bool) (out0 out2 : list string) (b : R)
  (tr : trace_field_line2_output) :
  reaches_trace X maginput status out0 b tr out2 ->
  Nposit tr = (-9999)%Z ->
  _interpolate_field_line X maginput r0 status out0
  = (inl open_field_line, out2).
Proof.
  intros (lstar & out1 & Hl & Hb & Htr) HN.
  unfold _interpolate_field_line, bind, lift.
  rewrite Hl, Hb, Htr, HN. reflexivity.
Qed.

(** C3: when the engine leaves the point count at the sentinel -9999, the
    interpolator raises the open-field-line error, whatever the rest of the
    trace holds, and so do [bounce_period] and [mirror_point_altitude]:
    none returns a result. *)
Theorem open_field_line_raises (X : Xdict) (maginput : option pydict)
  (status : bool) (out out2 : list string) (b : R)
  (tr : trace_field_line2_output) :
  reaches_trace X maginput status out b tr out2 ->
  Nposit tr = (-9999)%Z ->
  (forall r0,
     _interpolate_field_line X maginput r0 status out
     = (inl (ValueError [AStr "This is an open field line!"]), out2)) /\
  (forall E kw out0,
     STATUS_FLAG kw = status ->
     after_status kw "IRBEM: Calculating bounce periods" out0 = out ->
     bounce_period X maginput E kw out0
     = (inl (ValueError [AStr "This is an open field line!"]), out2)) /\
  (forall kw out0,
     STATUS_FLAG kw = status ->
     after_status kw "IRBEM: Calculating mirror point altitude" out0 = out ->
     mirror_point_altitude X maginput kw out0
     = (inl (ValueError [AStr "This is an open field line!"]), out2)).
Proof.
  intros Htr HN. repeat split.
  - intros r0. exact (interpolate_open_line _ _ r0 _ _ _ _ _ Htr HN).
  - intros E kw out0 Hst Hout.
    unfold bounce_period, bind. rewrite when_print.
    unfold after_status in Hout. rewrite Hout, Hst.
    now rewrite (interpolate_open_line _ _ (R0 kw) _ _ _ _ _ Htr HN).
  - intros kw out0 Hst Hout.
    unfold mirror_point_altitude, bind. rewrite when_print.
    unfold after_status in Hout. rewrite Hout, Hst.
    now rewrite (interpolate_open_line _ _ (R0 kw) _ _ _ _ _ Htr HN).
Qed.

Lemma py_slice_prefix_length {A : Type} (n : Z) (a : list A) :
  (0 <= n)%Z -> (List.length (py_slice 0 n a) <= Z.to_nat n)%nat.
Proof.
  intros Hn. unfold py_slice, slice_bound.
  replace (n <? 0)%Z with false by (symmetry; apply Z.ltb_ge; lia).
  rewrite length_firstn. cbn [Z.ltb Z.compare]. lia.
Qed.

(** C7, amended: a trace of one to three samples is handed to [interp1d]
    as it is, the interpolator having no sample-count check of its own; the
    ValueError with which [interp1d] rejects fewer than four entries is
    raised by the first interpolant, that of the field deficit, and leaves
    the interpolator unchanged, so that no interpolation result is
    returned. *)
Theorem short_trace_fails_in_interp1d (X : Xdict) (maginput : option pydict)
  (status : bool) (out0 out2 : list string) (b : R)
  (tr : trace_field_line2_output) :
  reaches_trace X maginput status out0 b tr out2 ->
  (1 <= Nposit tr < 4)%Z ->
  List.length (POSIT tr) = Z.to_nat (Nposit tr) ->
  interp1d_needs_four_entries ->
  exists msg,
    interp1d_cubic
      (map INR (seq 0 (List.length (py_slice 0 (Nposit tr) (blocal tr)))))
      (map (fun v => v - b) (py_slice 0 (Nposit tr) (blocal tr)))
    = inl (ValueError [AStr msg]) /\
    forall r0,
      _interpolate_field_line X maginput r0 status out0
      = (inl (ValueError [AStr msg]), out2).
Proof.
  intros (lstar & out1 & Hl & Hb & Htr) HN Hlen Hscipy.
  destruct (Hscipy
              (map INR (seq 0 (List.length (py_slice 0 (Nposit tr) (blocal tr)))))
              (map (fun v => v - b) (py_slice 0 (Nposit tr) (blocal tr))))
    as (msg & Hmsg).
  { rewrite length_map, length_seq.
    pose proof (py_slice_prefix_length (Nposit tr) (blocal tr)). lia. }
  exists msg. split; [exact Hmsg|].
  intros r0. unfold _interpolate_field_line, bind, lift.
  rewrite Hl, Hb, Htr.
  replace (Nposit tr =? -9999)%Z with false by (symmetry; apply Z.eqb_neq; lia).
  destruct (POSIT tr) as [|p posit] eqn:Hposit; [simpl in Hlen; lia|].
  cbn [column]. now rewrite Hmsg.
Qed.



(** A ValueError of the root-finder whose message is not the sign message
    leaves the handler without being raised again, and the locals of the
    [try] block unbound. *)
Lemma unmatched_ValueError_falls_through (fLine : field_line) (msg : string) :
  brentq (fB fLine) 0 (INR (List.length (S_ fLine)) / 2)
  = inl (ValueError [AStr msg]) ->
  msg <> sign_msg ->
  try_brackets fLine = (None, None, Some (ValueError [AStr msg])) /\
  forall reraised out,
    except_ValueError (Some (ValueError [AStr msg])) reraised out
    = (inr tt, out).
Proof.
  intros Hb Hmsg. split.
  - unfold try_brackets. now rewrite Hb.
  - intros reraised out. unfold except_ValueError, str_is.
    apply String.eqb_neq in Hmsg. now rewrite Hmsg.
Qed.

Lemma bounce_period_after_unmatched_ValueError (X : Xdict)
  (maginput : option pydict) (E : energy) (kw : kwargs)
  (out0 out1 : list string) (fLine : field_line) (msg : string) :
  _interpolate_field_line X maginput (R0 kw) (STATUS_FLAG kw)
    (after_status kw "IRBEM: Calculating bounce periods" out0)
  = (inr fLine, out1) ->
  brentq (fB fLine) 0 (INR (List.length (S_ fLine)) / 2)
  = inl (ValueError [AStr msg]) ->
  msg <> sign_msg ->
  bounce_period X maginput E kw out0
  = (inl (UnboundLocalError "startInd"),
     if (interpNum kw <? Z.of_nat (List.length (S_ fLine)))%Z
     then out1 ++ [density_warning] else out1).
Proof.
  intros Hint Hb Hmsg.
  destruct (unmatched_ValueError_falls_through _ _ Hb Hmsg) as (Htry & Hexc).
  unfold bounce_period, bind. rewrite when_print.
  unfold after_status in Hint. rewrite Hint, Htry, Hexc, when_print.
  reflexivity.
Qed.

Lemma mirror_point_altitude_after_unmatched_ValueError (X : Xdict)
  (maginput : option pydict) (kw : kwargs) (out0 out1 : list string)
  (fLine : field_line) (msg : string) :
  _interpolate_field_line X maginput (R0 kw) (STATUS_FLAG kw)
    (after_status kw "IRBEM: Calculating mirror point altitude" out0)
  = (inr fLine, out1) ->
  brentq (fB fLine) 0 (INR (List.length (S_ fLine)) / 2)
  = inl (ValueError [AStr msg]) ->
  msg <> sign_msg ->
  mirror_point_altitude X maginput kw out0
  = (inl (UnboundLocalError "startInd"), out1).
Proof.
  intros Hint Hb Hmsg.
  destruct (unmatched_ValueError_falls_through _ _ Hb Hmsg) as (Htry & Hexc).
  unfold mirror_point_altitude, bind. rewrite when_print.
  unfold after_status in Hint. rewrite Hint, Htry, Hexc.
  reflexivity.
Qed.

End Pipeline.

(** ** The entry points on the synthetic collaborators *)

Lemma bounce_period_scalar_integral_witness :
  exists T fLine sLow sHigh,
    @bounce_period closed_line_engine midpoint_scipy tt None (EScalar 100)
      resample_4 []
    = (inr (TbScalar T), [density_warning]) /\
    sLow = 2 /\ sHigh = 11 / 2 /\
    let s := fun i : nat => sLow + INR i * ((sHigh - sLow) / 3) in
    let ds := fun i : nat =>
      6371000 * sqrt ((fx fLine (s i) - fx fLine (s (i - 1)%nat)) ^ 2
                      + (fy fLine (s i) - fy fLine (s (i - 1)%nat)) ^ 2
                      + (fz fLine (s i) - fz fLine (s (i - 1)%nat)) ^ 2) in
    let v := fun i : nat =>
      300000000 * sqrt (1 - / ((100 / 511 + 1) ^ 2))
      * sqrt (1 - Rabs ((fB fLine (s i) + inputB fLine) / inputB fLine)) in
    T = 2 * (ds 1%nat / v 1%nat + (ds 2%nat / v 2%nat + 0)).
Proof.
  destruct (closed_line_interpolation midpoint_scipy 1 [] eq_refl)
    as (f & Hint & HS & HB & HfB & _).
  destruct (@bounce_period_scalar_integral closed_line_engine midpoint_scipy
              tt None 100 resample_4 [] [density_warning] _ eq_refl)
    as (fLine & out' & sLow & sHigh & Hint' & Hlo & Hhi & _ & Hform).
  assert (Heq : (@inr exn field_line fLine, out') = (inr f, [])).
  { rewrite <- Hint', <- Hint. reflexivity. }
  inversion Heq; subst fLine out'. clear Heq Hint'.
  cbn [brentq midpoint_scipy] in Hlo, Hhi. rewrite HS in Hlo, Hhi.
  assert (HsLow : sLow = 2).
  { inversion Hlo. simpl. lra. }
  assert (HsHigh : sHigh = 11 / 2).
  { inversion Hhi. simpl. lra. }
  cbv zeta in Hform.
  eexists. exists f, sLow, sHigh. split; [|split; [exact HsLow|]].
  - rewrite <- Hform; [reflexivity | lra | simpl; lra | rewrite HB; simpl; lra |].
    intros i Hi. rewrite HfB, HB, HsLow, HsHigh.
    change (Z.to_nat (interpNum resample_4) - 2)%nat with 2%nat in Hi.
    change (IZR (interpNum resample_4 - 1)) with 3.
    assert (Hcases : i = 1%nat \/ i = 2%nat) by lia.
    destruct Hcases as [-> | ->]; simpl; apply Rabs_def1; lra.
  - split; [exact HsHigh|]. reflexivity.
Defined.









Lemma open_field_line_raises_witness :
  @_interpolate_field_line open_line_engine midpoint_scipy tt None 1 false []
  = (inl (ValueError [AStr "This is an open field line!"]), []).
Proof.
  eapply (fun H1 H2 =>
            proj1 (@open_field_line_raises open_line_engine midpoint_scipy
                     tt None false [] _ _ _ H1 H2)).
  - eexists. eexists. split; [reflexivity|]. split; reflexivity.
  - reflexivity.
Defined.

(** C7, counterexample: a trace that came back with no sample (point count
    0, not the sentinel) makes the interpolator fail with numpy's
    IndexError on the empty position array, before any interpolant is
    requested; the failure is not a complaint about the number of samples. *)
Lemma empty_trace_raises_IndexError :
  (exists tr,
     @reaches_trace empty_line_engine tt None false [] 100 tr [] /\
     Nposit tr = 0%Z /\ (Nposit tr < 4)%Z /\ Nposit tr <> (-9999)%Z) /\
  @_interpolate_field_line empty_line_engine midpoint_scipy tt None 1 false []
  = (inl (IndexError [AStr "too many indices for array"]), []) /\
  (forall args,
     fst (@_interpolate_field_line empty_line_engine midpoint_scipy tt None 1
            false [])
     <> inl (ValueError args)).
Proof.
  split; [|split].
  - eexists. split.
    + eexists. eexists. split; [reflexivity|]. split; reflexivity.
    + simpl. repeat split; lia.
  - reflexivity.
  - intros args H.
    change (fst (@_interpolate_field_line empty_line_engine midpoint_scipy tt
                   None 1 false []))
      with (@inl exn field_line
              (IndexError [AStr "too many indices for array"])) in H.
    discriminate H.
Qed.

Lemma short_trace_fails_in_interp1d_witness :
  exists msg,
    @_interpolate_field_line short_line_engine midpoint_scipy tt None 1 false []
    = (inl (ValueError [AStr msg]), []).
Proof.
  edestruct (@short_trace_fails_in_interp1d short_line_engine midpoint_scipy
               tt None false [] [] 100)
    as (msg & _ & Hraise).
  - eexists. eexists. split; [reflexivity|]. split; reflexivity.
  - simpl. lia.
  - reflexivity.
  - exact cubic_through_four_needs_four.
  - exists msg. apply Hraise.
Defined.





(** C10: on a closed field line whose root-finder call raises a ValueError
    with a message other than the sign message, the handler of the [try]
    block re-raises nothing: [bounce_period] goes on to the density check,
    prints its warning, and only then fails, with an UnboundLocalError for
    [startInd]; [mirror_point_altitude] fails in the same way. *)
Theorem root_finder_error_is_swallowed :
  (exists fLine,
     @_interpolate_field_line closed_line_engine nan_scipy tt None 1 false []
     = (inr fLine, []) /\
     @try_brackets nan_scipy fLine
     = (None, None, Some (ValueError [AStr nan_msg])) /\
     @except_ValueError (Some (ValueError [AStr nan_msg])) below_ground_long []
     = (inr tt, [])) /\
  @bounce_period closed_line_engine nan_scipy tt None (EScalar 100)
    resample_4 []
  = (inl (UnboundLocalError "startInd"), [density_warning]) /\
  @mirror_point_altitude closed_line_engine nan_scipy tt None default_kwargs []
  = (inl (UnboundLocalError "startInd"), []).
Proof.
  split; [|split].
  - eexists. split; [reflexivity|]. split; reflexivity.
  - reflexivity.
  - reflexivity.
Qed.

(** ** Kinematics helpers *)

Lemma beta_square (Ek Erest : R) :
  0 <= Ek -> 0 < Erest ->
  1 <= Ek / Erest + 1 /\
  0 <= 1 - / ((Ek / Erest + 1) ^ 2) < 1.
Proof.
  intros HE Hr.
  assert (Hq : 0 <= Ek / Erest).
  { apply Rmult_le_pos; [exact HE|]. left. now apply Rinv_0_lt_compat. }
  assert (Hg : 1 <= (Ek / Erest + 1) ^ 2) by nra.
  split; [lra|].
  assert (Hinv : 0 < / ((Ek / Erest + 1) ^ 2)) by (apply Rinv_0_lt_compat; lra).
  assert (Hle : / ((Ek / Erest + 1) ^ 2) <= / 1)
    by (apply Rinv_le_contravar; lra).
  rewrite Rinv_1 in Hle.
  set (u := / ((Ek / Erest + 1) ^ 2)) in *. clearbody u. split; lra.
Qed.

Lemma beta_range (Ek Erest : R) :
  0 <= Ek -> 0 < Erest -> 0 <= beta Ek Erest <= 1.
Proof.
  intros HE Hr. destruct (beta_square Ek Erest HE Hr) as [_ [Hlo Hhi]].
  unfold beta. split.
  - now apply sqrt_positivity.
  - assert (H : sqrt (1 - / ((Ek / Erest + 1) ^ 2)) <= sqrt 1)
      by (apply sqrt_le_1_alt; lra).
    now rewrite sqrt_1 in H.
Qed.

Lemma beta_at_rest (Erest : R) : beta 0 Erest = 0.
Proof.
  unfold beta.
  replace (1 - / ((0 / Erest + 1) ^ 2)) with 0; [apply sqrt_0|].
  unfold Rdiv. rewrite Rmult_0_l, Rplus_0_l. simpl.
  rewrite !Rmult_1_r, Rinv_1. ring.
Qed.

(** A moving particle has a non-zero [beta]. *)
Lemma beta_positive (Ek Erest : R) :
  0 < Ek -> 0 < Erest -> 0 < beta Ek Erest.
Proof.
  intros HE Hr. unfold beta. apply sqrt_lt_R0.
  assert (Hq : 0 < Ek / Erest)
    by (apply Rmult_lt_0_compat; [exact HE | now apply Rinv_0_lt_compat]).
  assert (Hg : 1 < (Ek / Erest + 1) ^ 2) by nra.
  assert (Hinv : / ((Ek / Erest + 1) ^ 2) < / 1)
    by (apply Rinv_lt_contravar; lra).
  rewrite Rinv_1 in Hinv. lra.
Qed.

(** X1: for a non-negative kinetic energy and a positive rest energy,
    [beta] is a speed ratio: it lies between 0 and 1, ends included, and it
    is 0 at rest. *)
Theorem beta_is_a_speed_ratio (Ek Erest : R) :
  0 <= Ek -> 0 < Erest ->
  0 <= beta Ek Erest <= 1 /\ beta 0 Erest = 0.
Proof.
  intros HE Hr. split; [now apply beta_range | apply beta_at_rest].
Qed.

Lemma beta_is_a_speed_ratio_witness :
  0 <= beta 100 511 <= 1 /\ beta 0 511 = 0.
Proof. apply (beta_is_a_speed_ratio 100 511); lra. Defined.

(** X2: the parallel velocity is 0 at the mirror point itself and
    300000000 beta where the local field is 0; with the local field within
    the mirror field it lies between these two, and never exceeds
    300000000 m/s. *)
Theorem vparalel_between_mirror_and_equator (Ek Bm B Erest : R) :
  0 <= Ek -> 0 < Erest -> Bm <> 0 -> Rabs (B / Bm) <= 1 ->
  vparalel Ek Bm Bm Erest = 0 /\
  vparalel Ek Bm 0 Erest = 300000000 * beta Ek Erest /\
  0 <= vparalel Ek Bm B Erest <= 300000000 * beta Ek Erest /\
  300000000 * beta Ek Erest <= 300000000.
Proof.
  intros HE Hr HBm HB.
  destruct (beta_range Ek Erest HE Hr) as [Hb0 Hb1].
  unfold vparalel, c. split; [|split; [|split]].
  - replace (Bm / Bm) with 1 by (field; exact HBm).
    rewrite Rabs_R1. replace (1 - 1) with 0 by ring. rewrite sqrt_0. ring.
  - unfold Rdiv. rewrite Rmult_0_l, Rabs_R0.
    replace (1 - 0) with 1 by ring. rewrite sqrt_1. ring.
  - assert (Hs0 : 0 <= sqrt (1 - Rabs (B / Bm)))
      by (apply sqrt_positivity; lra).
    assert (Hs1 : sqrt (1 - Rabs (B / Bm)) <= 1).
    { assert (H : sqrt (1 - Rabs (B / Bm)) <= sqrt 1)
        by (apply sqrt_le_1_alt; pose proof (Rabs_pos (B / Bm)); lra).
      now rewrite sqrt_1 in H. }
    split; nra.
  - lra.
Qed.

Lemma vparalel_between_mirror_and_equator_witness :
  vparalel 100 50 50 511 = 0 /\
  vparalel 100 50 0 511 = 300000000 * beta 100 511 /\
  0 <= vparalel 100 50 25 511 <= 300000000.
Proof.
  destruct (vparalel_between_mirror_and_equator 100 50 25 511)
    as (H0 & Heq & Hmid & Hc);
    [lra | lra | lra
     | replace (25 / 50) with (/ 2) by lra; rewrite Rabs_pos_eq; lra
     | split; [exact H0 | split; [exact Heq | lra]]].
Defined.

(** X3: [gamma] does not read the rest energy it is given (it hands the
    literal 511 to [beta]); for a non-negative kinetic energy it is never
    below 1, and it is 1 at rest. *)
Theorem gamma_ignores_rest_energy (Ek Erest Erest' : R) :
  0 <= Ek ->
  gamma Ek Erest = gamma Ek Erest' /\
  1 <= gamma Ek Erest /\
  gamma 0 Erest = 1.
Proof.
  intros HE. split; [reflexivity|]. split.
  - destruct (beta_square Ek 511 HE ltac:(lra)) as [_ [Hlo Hhi]].
    unfold gamma, beta. rewrite pow2_sqrt by exact Hlo.
    set (u := 1 - (1 - / ((Ek / 511 + 1) ^ 2))).
    assert (Hu : 0 < u <= 1) by (unfold u; lra).
    assert (Hs : 0 < sqrt u <= 1).
    { split; [apply sqrt_lt_R0; lra|].
      rewrite <- sqrt_1. apply sqrt_le_1_alt. lra. }
    assert (Hln : ln (sqrt u) <= 0).
    { rewrite <- ln_1. destruct Hs as [Hpos [Hlt|Heq]].
      - left. now apply ln_increasing.
      - rewrite Heq. apply Rle_refl. }
    unfold Rpower. rewrite <- exp_0.
    assert (Ht : 0 <= - 1 / 2 * ln (sqrt u)) by nra.
    destruct Ht as [Ht|Ht].
    + left. now apply exp_increasing.
    + rewrite <- Ht. apply Rle_refl.
  - unfold gamma. rewrite beta_at_rest.
    replace (1 - 0 ^ 2) with 1 by ring.
    rewrite sqrt_1. unfold Rpower. now rewrite ln_1, Rmult_0_r, exp_0.
Qed.

Lemma gamma_ignores_rest_energy_witness :
  gamma 511 938272 = gamma 511 511 /\ 1 <= gamma 511 938272.
Proof.
  destruct (gamma_ignores_rest_energy 511 938272 511) as (Heq & Hge & _);
    [lra | split; assumption].
Defined.

(** ** More on the entry points *)

Lemma np_sum_scale (k : R) (a : list R) :
  np_sum a * k = np_sum (map (fun x => x * k) a).
Proof.
  induction a as [|x a IH]; simpl; [ring|]. rewrite <- IH. ring.
Qed.

(** The bounce integral is the path integral divided by beta. *)
Lemma bounce_integral_times_beta (E Erest : R) (fLine : field_line)
  (sLow sHigh : R) (num : Z) :
  beta E Erest <> 0 ->
  bounce_integral E Erest fLine sLow sHigh num * beta E Erest
  = path_integral fLine sLow sHigh num.
Proof.
  intros Hb. unfold bounce_integral, path_integral.
  rewrite Rmult_assoc, np_sum_scale, map_map. do 2 f_equal.
  apply map_ext. intros i. unfold vparalel, Rdiv.
  rewrite !Rinv_mult.
  set (x := arc_increment _ _ _). set (g := / sqrt _).
  transitivity (x * (/ c * g) * (/ beta E Erest * beta E Erest)); [ring|].
  rewrite Rinv_l by exact Hb. ring.
Qed.

Section MorePipeline.
Context {engine : Engine} {scipy : SciPy}.

(** X4: a call with a sequence of energies returns, in the same order,
    what the scalar call returns for each of its energies, and prints the
    same lines. *)
Theorem bounce_period_energy_array (X : Xdict) (maginput : option pydict)
  (Es : list R) (kw : kwargs) (out0 out1 : list string) (Tb : bounce_result) :
  bounce_period X maginput (EArray Es) kw out0 = (inr Tb, out1) ->
  exists Ts,
    Tb = TbList Ts /\
    Forall2 (fun E T =>
               bounce_period X maginput (EScalar E) kw out0
               = (inr (TbScalar T), out1)) Es Ts.
Proof.
  intros H.
  destruct (bounce_period_inr _ _ _ _ _ _ _ H)
    as (fLine & out' & sLow & sHigh & Hint & Htry & Hnum).
  rewrite (bounce_period_runs _ _ _ _ _ _ _ _ _ Hint Htry Hnum) in H.
  inversion H as [[HTb Hout]]. clear H HTb.
  eexists. split; [reflexivity|].
  induction Es as [|E Es IH]; simpl; constructor.
  - exact (bounce_period_runs _ _ (EScalar E) _ _ _ _ _ _ Hint Htry Hnum).
  - exact IH.
Qed.

(** X5: the bounce period is inversely proportional to beta: for two
    moving particles on the same field line, Tb times beta is the same. *)
Theorem bounce_period_scales_with_beta (X : Xdict) (maginput : option pydict)
  (E1 E2 : R) (kw : kwargs) (out0 out1 out2 : list string) (T1 T2 : R) :
  beta E1 (Erest kw) <> 0 ->
  beta E2 (Erest kw) <> 0 ->
  bounce_period X maginput (EScalar E1) kw out0 = (inr (TbScalar T1), out1) ->
  bounce_period X maginput (EScalar E2) kw out0 = (inr (TbScalar T2), out2) ->
  T1 * beta E1 (Erest kw) = T2 * beta E2 (Erest kw).
Proof.
  intros Hb1 Hb2 H1 H2.
  destruct (bounce_period_inr _ _ _ _ _ _ _ H1)
    as (fLine & out' & sLow & sHigh & Hint & Htry & Hnum).
  rewrite (bounce_period_runs _ _ _ _ _ _ _ _ _ Hint Htry Hnum) in H1.
  rewrite (bounce_period_runs _ _ _ _ _ _ _ _ _ Hint Htry Hnum) in H2.
  inversion H1 as [[HT1 Ho1]]. inversion H2 as [[HT2 Ho2]].
  now rewrite !bounce_integral_times_beta.
Qed.


(** X7: a resample count that is zero or negative makes [bounce_period]
    fail with a ValueError, after the brackets have been found. *)
Theorem bounce_period_rejects_empty_resampling (X : Xdict)
  (maginput : option pydict) (E : energy) (kw : kwargs)
  (out0 out1 : list string) (fLine : field_line) (sLow sHigh : R) :
  _interpolate_field_line X maginput (R0 kw) (STATUS_FLAG kw)
    (after_status kw "IRBEM: Calculating bounce periods" out0)
  = (inr fLine, out1) ->
  try_brackets fLine = (Some sLow, Some sHigh, None) ->
  (interpNum kw <= 0)%Z ->
  exists args,
    fst (bounce_period X maginput E kw out0) = inl (ValueError args).
Proof.
  intros Hint Htry Hnum.
  unfold bounce_period, bind. rewrite when_print.
  unfold after_status in Hint. rewrite Hint, Htry.
  cbn [except_ValueError ret]. rewrite when_print. cbn [local ret].
  unfold lift, np_linspace.
  destruct (interpNum kw <? 0)%Z eqn:Hneg; [eexists; reflexivity|].
  apply Z.ltb_ge in Hneg.
  replace (interpNum kw) with 0%Z by lia.
  eexists. reflexivity.
Qed.

(** X8: when the root-finder reports that a bracket shows no sign change,
    [bounce_period] raises its "below the ground" ValueError, which carries
    the original one; [mirror_point_altitude] raises the same error when
    STATUS_FLAG is set and the bare message otherwise.  Nothing is printed
    after the interpolation. *)
Theorem mirror_point_below_ground (fLine : field_line) (startInd endInd : option R) :
  try_brackets fLine = (startInd, endInd, Some sign_error) ->
  (forall X maginput E kw out0 out1,
     _interpolate_field_line X maginput (R0 kw) (STATUS_FLAG kw)
       (after_status kw "IRBEM: Calculating bounce periods" out0)
     = (inr fLine, out1) ->
     bounce_period X maginput E kw out0
     = (inl (ValueError
               [AStr ("Mirror point below the ground!, Change R0" ++
                      " or catch this error and assign it a value.")%string;
                AStr (newline ++ " Original error: ")%string;
                AExn sign_error]), out1)) /\
  (forall X maginput kw out0 out1,
     _interpolate_field_line X maginput (R0 kw) (STATUS_FLAG kw)
       (after_status kw "IRBEM: Calculating mirror point altitude" out0)
     = (inr fLine, out1) ->
     mirror_point_altitude X maginput kw out0
     = (inl (if STATUS_FLAG kw then below_ground_long sign_error
             else below_ground_short), out1)).
Proof.
  intros Htry. split.
  - intros X maginput E kw out0 out1 Hint.
    unfold bounce_period, bind. rewrite when_print.
    unfold after_status in Hint. rewrite Hint, Htry. reflexivity.
  - intros X maginput kw out0 out1 Hint.
    unfold mirror_point_altitude, bind. rewrite when_print.
    unfold after_status in Hint. rewrite Hint, Htry. reflexivity.
Qed.

(** X9: an exception of the interpolation stage, and an exception of the
    root-finder that is not a ValueError, reach the caller of either entry
    point unchanged. *)
Theorem other_errors_propagate (X : Xdict) (maginput : option pydict)
  (kw : kwargs) :
  (forall E out0 out1 err,
     _interpolate_field_line X maginput (R0 kw) (STATUS_FLAG kw)
       (after_status kw "IRBEM: Calculating bounce periods" out0)
     = (inl err, out1) ->
     bounce_period X maginput E kw out0 = (inl err, out1)) /\
  (forall out0 out1 err,
     _interpolate_field_line X maginput (R0 kw) (STATUS_FLAG kw)
       (after_status kw "IRBEM: Calculating mirror point altitude" out0)
     = (inl err, out1) ->
     mirror_point_altitude X maginput kw out0 = (inl err, out1)) /\
  (forall E out0 out1 fLine startInd endInd err,
     _interpolate_field_line X maginput (R0 kw) (STATUS_FLAG kw)
       (after_status kw "IRBEM: Calculating bounce periods" out0)
     = (inr fLine, out1) ->
     try_brackets fLine = (startInd, endInd, Some err) ->
     (forall args, err <> ValueError args) ->
     bounce_period X maginput E kw out0 = (inl err, out1)) /\
  (forall out0 out1 fLine startInd endInd err,
     _interpolate_field_line X maginput (R0 kw) (STATUS_FLAG kw)
       (after_status kw "IRBEM: Calculating mirror point altitude" out0)
     = (inr fLine, out1) ->
     try_brackets fLine = (startInd, endInd, Some err) ->
     (forall args, err <> ValueError args) ->
     mirror_point_altitude X maginput kw out0 = (inl err, out1)).
Proof.
  repeat split.
  - intros E out0 out1 err Hint.
    unfold bounce_period, bind. rewrite when_print.
    unfold after_status in Hint. now rewrite Hint.
  - intros out0 out1 err Hint.
    unfold mirror_point_altitude, bind. rewrite when_print.
    unfold after_status in Hint. now rewrite Hint.
  - intros E out0 out1 fLine startInd endInd err Hint Htry Herr.
    unfold bounce_period, bind. rewrite when_print.
    unfold after_status in Hint. rewrite Hint, Htry.
    destruct err; try reflexivity. now destruct (Herr args).
  - intros out0 out1 fLine startInd endInd err Hint Htry Herr.
    unfold mirror_point_altitude, bind. rewrite when_print.
    unfold after_status in Hint. rewrite Hint, Htry.
    destruct err; try reflexivity. now destruct (Herr args).
Qed.

(** X10: the stop radius R0 has no effect on either entry point: it is
    handed to the interpolator, which traces the line with the default
    radius. *)
Theorem stop_radius_is_ignored (X : Xdict) (maginput : option pydict)
  (E : energy) (kw : kwargs) (r : R) (out0 : list string) :
  bounce_period X maginput E (with_R0 kw r) out0
  = bounce_period X maginput E kw out0 /\
  mirror_point_altitude X maginput (with_R0 kw r) out0
  = mirror_point_altitude X maginput kw out0.
Proof. split; reflexivity. Qed.

(** X11: when [interp1d] rejects fewer than four entries, every field line
    the interpolator returns has at least four samples, indexed 0 to N-1,
    so that the second bracket [N/2, N-1] of the entry points is not
    reversed. *)
Theorem interpolated_line_has_four_samples (X : Xdict)
  (maginput : option pydict) (r0 : R) (status : bool)
  (out0 out1 : list string) (fLine : field_line) :
  interp1d_needs_four_entries ->
  _interpolate_field_line X maginput r0 status out0 = (inr fLine, out1) ->
  (4 <= List.length (S_ fLine))%nat /\
  S_ fLine = seq 0 (List.length (S_ fLine)) /\
  0 < INR (List.length (S_ fLine)) / 2 <= INR (List.length (S_ fLine)) - 1.
Proof.
  intros Hscipy H. unfold _interpolate_field_line in H.
  apply bind_inr in H as (lstar & o1 & _ & H).
  apply bind_inr in H as (b & o2 & _ & H).
  apply bind_inr in H as (tr & o3 & _ & H).
  destruct (Nposit tr =? -9999)%Z; [discriminate|].
  apply bind_inr in H as (xGEO & o4 & _ & H).
  apply bind_inr in H as (yGEO & o5 & _ & H).
  apply bind_inr in H as (zGEO & o6 & _ & H).
  apply bind_inr in H as (f1 & o7 & HfB & H).
  apply lift_inr in HfB as [HfB _].
  apply bind_inr in H as (f2 & o8 & _ & H).
  apply bind_inr in H as (f3 & o9 & _ & H).
  apply bind_inr in H as (f4 & o10 & _ & H).
  unfold ret in H. inversion H; subst. cbn [S_].
  set (n := List.length (py_slice 0 (Nposit tr) (blocal tr))) in *.
  assert (Hn : (4 <= n)%nat).
  { destruct (le_lt_dec 4 n) as [Hge|Hlt]; [exact Hge|].
    destruct (Hscipy (map INR (seq 0 n))
                (map (fun v => v - b) (py_slice 0 (Nposit tr) (blocal tr))))
      as (msg & Hmsg).
    - now rewrite length_map, length_seq.
    - rewrite Hmsg in HfB. discriminate. }
  rewrite length_seq. repeat split; try assumption.
  - apply le_INR in Hn. simpl in Hn. lra.
  - apply le_INR in Hn. simpl in Hn. lra.
Qed.

(** X12: [trace_field_line] returns the point count of the engine as it
    is, and the position and field arrays cut by the Python slice [:Nposit]:
    the first Nposit samples for a non-negative count, and all but the last
    -Nposit for a negative one, so that the sentinel -9999 leaves both
    arrays of the 3000-slot buffers empty instead of raising. *)
Theorem trace_field_line_sample_count (X : Xdict) (maginput : option pydict)
  (r0 : R) (status : bool) (out0 out1 : list string)
  (tr : trace_field_line2_output) :
  trace_field_line X maginput r0 status out0 = (inr tr, out1) ->
  exists mi args posit field,
    _prepMagInput maginput = inr mi /\
    _prepTimeLoc X = inr args /\
    trace_field_line2_1_ args mi r0 = (posit, field, Nposit tr) /\
    ((0 <= Nposit tr)%Z ->
     POSIT tr = firstn (Z.to_nat (Nposit tr)) posit /\
     blocal tr = firstn (Z.to_nat (Nposit tr)) field) /\
    ((Nposit tr < 0)%Z ->
     POSIT tr = firstn (List.length posit - Z.to_nat (- Nposit tr)) posit /\
     blocal tr = firstn (List.length field - Z.to_nat (- Nposit tr)) field) /\
    (Nposit tr = (-9999)%Z ->
     (List.length posit <= 3000)%nat -> (List.length field <= 3000)%nat ->
     POSIT tr = [] /\ blocal tr = []).
Proof.
  intros H. unfold trace_field_line in H.
  apply bind_inr in H as (mi & o1 & Hmi & H).
  apply lift_inr in Hmi as [Hmi _].
  apply bind_inr in H as (args & o2 & Hargs & H).
  apply lift_inr in Hargs as [Hargs _].
  apply bind_inr in H as ([] & o3 & _ & H).
  destruct (trace_field_line2_1_ args mi r0) as [[posit field] n] eqn:Heng.
  unfold ret in H. inversion H; subst. cbn [Nposit POSIT blocal].
  exists mi, args, posit, field.
  assert (Hslice : forall (A : Type) (a : list A),
             ((0 <= n)%Z -> py_slice 0 n a = firstn (Z.to_nat n) a) /\
             ((n < 0)%Z ->
              py_slice 0 n a = firstn (List.length a - Z.to_nat (- n)) a)).
  { intros A a. unfold py_slice, slice_bound. cbn [Z.ltb Z.compare].
    replace (Z.to_nat (Z.min 0 (Z.of_nat (List.length a)))) with 0%nat by lia.
    rewrite Nat.sub_0_r. cbn [skipn]. split; intros Hn.
    - replace (n <? 0)%Z with false by (symmetry; apply Z.ltb_ge; lia).
      destruct (Z_le_gt_dec n (Z.of_nat (List.length a))).
      + f_equal. lia.
      + rewrite !firstn_all2 by lia. reflexivity.
    - replace (n <? 0)%Z with true by (symmetry; apply Z.ltb_lt; lia).
      f_equal. lia. }
  repeat split; try assumption.
  - now apply Hslice.
  - now apply Hslice.
  - now apply Hslice.
  - now apply Hslice.
  - subst n. rewrite (proj2 (Hslice _ posit)) by lia.
    replace (List.length posit - Z.to_nat (- -9999))%nat with 0%nat by lia.
    reflexivity.
  - subst n. rewrite (proj2 (Hslice _ field)) by lia.
    replace (List.length field - Z.to_nat (- -9999))%nat with 0%nat by lia.
    reflexivity.
Qed.

End MorePipeline.

(** ** The further facts on the synthetic collaborators *)

Lemma bounce_period_energy_array_witness :
  exists Ts,
    Forall2 (fun E T =>
               @bounce_period closed_line_engine midpoint_scipy tt None
                 (EScalar E) resample_4 []
               = (inr (TbScalar T), [density_warning])) [100; 200] Ts.
Proof.
  destruct (@bounce_period_energy_array closed_line_engine midpoint_scipy
              tt None [100; 200] resample_4 [] [density_warning] _ eq_refl)
    as (Ts & _ & H).
  exists Ts. exact H.
Defined.

Lemma bounce_period_scales_with_beta_witness :
  exists T1 T2,
    @bounce_period closed_line_engine midpoint_scipy tt None (EScalar 100)
      resample_4 []
    = (inr (TbScalar T1), [density_warning]) /\
    @bounce_period closed_line_engine midpoint_scipy tt None (EScalar 200)
      resample_4 []
    = (inr (TbScalar T2), [density_warning]) /\
    T1 * beta 100 511 = T2 * beta 200 511.
Proof.
  eexists. eexists. split; [reflexivity|]. split; [reflexivity|].
  apply (@bounce_period_scales_with_beta closed_line_engine midpoint_scipy
           tt None 100 200 resample_4 [] [density_warning] [density_warning]).
  - apply Rgt_not_eq, beta_positive; simpl; lra.
  - apply Rgt_not_eq, beta_positive; simpl; lra.
  - reflexivity.
  - reflexivity.
Defined.


Lemma bounce_period_rejects_empty_resampling_witness :
  exists args,
    fst (@bounce_period closed_line_engine midpoint_scipy tt None
           (EScalar 100) resample_0 [])
    = inl (ValueError args).
Proof.
  eapply (@bounce_period_rejects_empty_resampling closed_line_engine
            midpoint_scipy tt None (EScalar 100) resample_0 [] []).
  - reflexivity.
  - reflexivity.
  - simpl. lia.
Defined.

Lemma mirror_point_below_ground_witness :
  @mirror_point_altitude closed_line_engine same_sign_scipy tt None
    default_kwargs []
  = (inl below_ground_short, []) /\
  exists args,
    @bounce_period closed_line_engine same_sign_scipy tt None (EScalar 100)
      default_kwargs []
    = (inl (ValueError args), []).
Proof.
  destruct (closed_line_interpolation same_sign_scipy 1 [] eq_refl)
    as (f & Hint & _).
  destruct (@mirror_point_below_ground closed_line_engine same_sign_scipy
              f None None eq_refl) as [Hb Hm].
  split.
  - exact (Hm tt None default_kwargs [] [] Hint).
  - eexists. exact (Hb tt None (EScalar 100) default_kwargs [] [] Hint).
Defined.

Lemma other_errors_propagate_witness :
  @bounce_period closed_line_engine diverging_scipy tt None (EScalar 100)
    default_kwargs []
  = (inl convergence_error, []) /\
  @mirror_point_altitude open_line_engine midpoint_scipy tt None
    default_kwargs []
  = (inl open_field_line, []).
Proof.
  destruct (closed_line_interpolation diverging_scipy 1 [] eq_refl)
    as (f & Hint & _).
  destruct (@other_errors_propagate closed_line_engine diverging_scipy
              tt None default_kwargs) as (_ & _ & Hroot & _).
  destruct (@other_errors_propagate open_line_engine midpoint_scipy
              tt None default_kwargs) as (_ & Hline & _).
  split.
  - apply (Hroot (EScalar 100) [] [] f None None convergence_error Hint
             eq_refl).
    intros args. discriminate.
  - apply Hline. reflexivity.
Defined.

Lemma interpolated_line_has_four_samples_witness :
  exists fLine,
    @_interpolate_field_line closed_line_engine midpoint_scipy tt None 1
      false []
    = (inr fLine, []) /\
    (4 <= List.length (S_ fLine))%nat /\
    S_ fLine = seq 0 (List.length (S_ fLine)) /\
    0 < INR (List.length (S_ fLine)) / 2 <= INR (List.length (S_ fLine)) - 1.
Proof.
  destruct (closed_line_interpolation midpoint_scipy 1 [] eq_refl)
    as (f & Hint & _).
  exists f. split; [exact Hint|].
  exact (@interpolated_line_has_four_samples closed_line_engine
           midpoint_scipy tt None 1 false [] [] f
           cubic_through_four_needs_four Hint).
Defined.

Lemma trace_field_line_sample_count_witness :
  exists tr posit,
    @trace_field_line closed_line_engine tt None 1 false [] = (inr tr, []) /\
    Nposit tr = 8%Z /\
    POSIT tr = firstn 8 posit.
Proof.
  eexists.
  destruct (@trace_field_line_sample_count closed_line_engine tt None 1
              false [] [] _ eq_refl)
    as (mi & args & posit & field & _ & _ & _ & Hpos & _).
  exists posit. split; [reflexivity|]. split; [reflexivity|].
  apply Hpos. simpl. lia.
Defined.

(** ** More on [_prepMagInput] *)

Lemma list_set_app {A : Type} (pre : list A) (x v : A) (suf : list A) :
  list_set (List.length pre) v (pre ++ x :: suf) = pre ++ v :: suf.
Proof. induction pre as [|h t IH]; simpl; [reflexivity | now rewrite IH]. Qed.

(** Writing the slots [k, k + len) one after the other. *)
Lemma list_set_fold {A : Type} (g : nat -> A) (len : nat) :
  forall (k : nat) (pre suf : list A),
    List.length pre = k -> (len <= List.length suf)%nat ->
    fold_left (fun acc i => list_set i (g i) acc) (seq k len) (pre ++ suf)
    = pre ++ map g (seq k len) ++ skipn len suf.
Proof.
  induction len as [|len IH]; intros k pre suf Hk Hlen; [reflexivity|].
  destruct suf as [|x suf]; [simpl in Hlen; lia|].
  subst k. cbn [seq fold_left map skipn]. rewrite list_set_app.
  change (pre ++ g (List.length pre) :: suf)
    with (pre ++ [g (List.length pre)] ++ suf).
  rewrite app_assoc, IH.
  - now rewrite <- app_assoc.
  - rewrite length_app. simpl. lia.
  - simpl in Hlen. lia.
Qed.

Lemma list_set_nth {A : Type} (i : nat) (m : list A) (d : A) :
  list_set i (nth i m d) m = m.
Proof.
  revert i. induction m as [|h t IH]; intros [|j]; simpl; try reflexivity.
  now rewrite IH.
Qed.

Lemma nth_list_set {A : Type} (i : nat) (v d : A) (m : list A) :
  (i < List.length m)%nat -> nth i (list_set i v m) d = v.
Proof.
  revert i. induction m as [|h t IH]; intros [|j] Hi; simpl in *; try lia.
  - reflexivity.
  - apply IH. lia.
Qed.

Lemma nth_list_set_other {A : Type} (i j : nat) (v d : A) (m : list A) :
  j <> i -> nth j (list_set i v m) d = nth j m d.
Proof.
  revert i j. induction m as [|h t IH]; intros [|i] [|j] Hne; simpl;
    try reflexivity; try lia.
  apply IH. lia.
Qed.

Lemma list_set_twice {A : Type} (i : nat) (v w : A) (m : list A) :
  list_set i v (list_set i w m) = list_set i v m.
Proof.
  revert i. induction m as [|h t IH]; intros [|j]; simpl; try reflexivity.
  now rewrite IH.
Qed.

Lemma mat_set_as_list_set (i dt : nat) (v : R) (m : list (list R)) :
  mat_set i dt v m = list_set i (list_set dt v (nth i m [])) m.
Proof.
  revert i. induction m as [|row t IH]; intros [|j]; simpl; try reflexivity.
  now rewrite IH.
Qed.

Lemma mat_set_fold (i : nat) (g : nat -> R) (dts : list nat) :
  forall m : list (list R),
    (i < List.length m)%nat ->
    fold_left (fun acc dt => mat_set i dt (g dt) acc) dts m
    = list_set i
        (fold_left (fun row dt => list_set dt (g dt) row) dts (nth i m [])) m.
Proof.
  induction dts as [|dt dts IH]; intros m Hi; simpl.
  - now rewrite list_set_nth.
  - rewrite IH by (rewrite mat_set_as_list_set, list_set_length; exact Hi).
    rewrite mat_set_as_list_set at 2.
    rewrite mat_set_as_list_set, nth_list_set by exact Hi.
    now rewrite list_set_twice.
Qed.

Lemma for_each_pure_inv {I S : Type} (P : S -> Prop) (xs : list I)
  (body : I -> S -> result S) (f : I -> S -> S) (s : S) :
  P s ->
  (forall i a, In i xs -> P a -> body i a = inr (f i a) /\ P (f i a)) ->
  for_each xs body s = inr (fold_left (fun acc i => f i acc) xs s).
Proof.
  revert s. induction xs as [|i xs IH]; intros s Hs Hbody; [reflexivity|].
  destruct (Hbody i s (or_introl eq_refl) Hs) as [Hb HP].
  simpl. rewrite Hb. simpl. apply IH; [exact HP|].
  intros j a Hj. apply Hbody. now right.
Qed.

Lemma map_nth_seq (l : list R) (n : nat) :
  List.length l = n -> map (fun i => nth i l 0) (seq 0 n) = l.
Proof.
  intros <-. induction l as [|x l IH]; [reflexivity|].
  cbn [List.length seq map nth]. f_equal.
  rewrite <- seq_shift, map_map. exact IH.
Qed.

Lemma matrix_row_length (d : pydict) (n : nat) (key : string) :
  sequences_cover d n -> In key orderedKeys ->
  List.length (matrix_row d n key) = n.
Proof.
  intros Hcover Hkey. unfold matrix_row.
  destruct (dict_get d key) as [e|v] eqn:Hget; [apply repeat_length|].
  destruct (Hcover key v Hkey Hget) as (xs & -> & Hlen).
  now apply firstn_length_le.
Qed.

Lemma ordered_key_in (i : nat) :
  (i < 17)%nat -> In (nth i orderedKeys "") orderedKeys.
Proof. intros Hi. apply nth_In. exact Hi. Qed.

Lemma fill_matrix_entry_covered (d : pydict) (n i dt : nat)
  (m : list (list R)) :
  sequences_cover d n -> (i < 17)%nat -> (dt < n)%nat ->
  fill_matrix_entry d i dt m
  = inr (mat_set i dt (nth dt (matrix_row d n (nth i orderedKeys "")) 0) m).
Proof.
  intros Hcover Hi Hdt. unfold fill_matrix_entry, matrix_row.
  destruct (key_in (nth i orderedKeys "") d) eqn:Hin.
  - destruct (key_in_dict_get _ _ Hin) as (k' & v & _ & Hget).
    rewrite Hget.
    destruct (Hcover _ v (ordered_key_in i Hi) Hget) as (xs & Hxs & Hlen).
    rewrite Hxs, nth_firstn.
    replace (dt <? n)%nat with true by (symmetry; apply Nat.ltb_lt; exact Hdt).
    assert (Hnth : nth_error xs dt = Some (nth dt xs 0))
      by (apply nth_error_nth'; lia).
    destruct v; try discriminate; inversion Hxs; subst;
      cbn [rbind getitem]; rewrite Hnth; reflexivity.
  - rewrite (key_not_in_dict_get _ _ Hin).
    replace (nth dt (repeat (-9999) n) 0) with (-9999); [reflexivity|].
    clear -Hdt. revert dt Hdt.
    induction n as [|n IH]; intros [|dt] Hdt; simpl; try lia; try reflexivity.
    apply IH. lia.
Qed.

(** X13: in the array branch, with n the number of characters of the
    first key, a dictionary whose model parameters all hold sequences of at
    least n numbers yields the 25 x n matrix whose rows 0 to 16 are, in the
    fixed key order, the first n numbers of each parameter, or n times -9999
    when the parameter is absent; rows 17 to 24 are zero. *)
Theorem prepMagInput_array_rows (key0 : string) (val0 : pyvalue)
  (rest : pydict) :
  let d : pydict := (key0, val0) :: rest in
  let n := String.length key0 in
  is_sequence val0 = true ->
  sequences_cover d n ->
  _prepMagInput (Some d)
  = inr (MagMat (map (matrix_row d n) orderedKeys ++ repeat (repeat 0 n) 8)).
Proof.
  intros d n Hseq Hcover. unfold _prepMagInput, d.
  unfold is_sequence in Hseq. rewrite Hseq. fold d. fold n.
  set (P := fun m : list (list R) =>
              List.length m = 25%nat /\
              Forall (fun row => List.length row = n) m).
  rewrite (for_each_pure_inv P _ _
             (fun i m => list_set i (matrix_row d n (nth i orderedKeys "")) m)).
  - reflexivity.
  - split; [apply repeat_length|].
    apply Forall_forall. intros row Hrow. apply repeat_spec in Hrow.
    subst row. apply repeat_length.
  - intros i m Hi [Hrows Hcols]. apply in_seq in Hi.
    assert (Hi17 : (i < 17)%nat) by (simpl in Hi; lia).
    assert (Hrow : List.length (nth i m []) = n).
    { rewrite Forall_forall in Hcols. apply Hcols, nth_In. lia. }
    split.
    + rewrite (for_each_pure_inv (fun _ => True) _ _
                 (fun dt acc =>
                    mat_set i dt
                      (nth dt (matrix_row d n (nth i orderedKeys "")) 0) acc));
        [|exact I|].
      * f_equal. rewrite mat_set_fold by lia. f_equal.
        rewrite (list_set_fold _ n 0 [] (nth i m []) eq_refl) by lia.
        cbn [app]. rewrite skipn_all2 by lia. rewrite app_nil_r.
        apply map_nth_seq, matrix_row_length;
          [exact Hcover | now apply ordered_key_in].
      * intros dt acc Hdt _. apply in_seq in Hdt. split; [|exact I].
        apply fill_matrix_entry_covered; [exact Hcover | exact Hi17 | lia].
    + unfold P. rewrite list_set_length. split; [exact Hrows|].
      apply Forall_forall. intros row Hin.
      destruct (In_nth _ _ [] Hin) as (j & Hj & <-).
      rewrite list_set_length in Hj.
      destruct (Nat.eq_dec j i) as [->|Hne].
      * rewrite nth_list_set by lia.
        apply matrix_row_length; [exact Hcover | now apply ordered_key_in].
      * rewrite nth_list_set_other by exact Hne.
        rewrite Forall_forall in Hcols. apply Hcols, nth_In. exact Hj.
Qed.

Lemma prepMagInput_array_rows_witness :
  _prepMagInput (Some three_step_inputs)
  = inr (MagMat ([[40; 30; 20]; [-30; -20; -10]]
                 ++ repeat [-9999; -9999; -9999] 15 ++ repeat [0; 0; 0] 8)).
Proof.
  unfold three_step_inputs.
  pose proof (prepMagInput_array_rows "Dst" (PyList [-30; -20; -10])
                [("Kp", NdArray [40; 30; 20; 10])] eq_refl) as H.
  cbv zeta in H. rewrite H; [reflexivity|].
  intros key v Hkey Hget. simpl in Hkey.
  repeat (destruct Hkey as [<- | Hkey];
          [unfold dict_get in Hget; simpl in Hget;
           first [discriminate Hget
                 | inversion Hget; eexists; split;
                   [reflexivity | simpl; lia]]|]).
  contradiction.
Defined.

Lemma for_each_fails {I S : Type} (P : exn -> Prop) (xs : list I)
  (body : I -> S -> result S) (i0 : I) :
  In i0 xs ->
  (forall i a, In i xs ->
     (exists b, body i a = inr b) \/ (exists e, body i a = inl e /\ P e)) ->
  (forall a, exists e, body i0 a = inl e /\ P e) ->
  forall s, exists e, for_each xs body s = inl e /\ P e.
Proof.
  intros Hin Hstep Hfail.
  induction xs as [|i xs IH]; intros s; [contradiction|].
  simpl. destruct (body i s) as [e|b] eqn:Hb.
  - exists e. split; [reflexivity|].
    destruct (Hstep i s (or_introl eq_refl)) as [(b & Hb')|(e' & He' & HP)];
      congruence.
  - destruct Hin as [->|Hin].
    + destruct (Hfail s) as (e & He & _). congruence.
    + simpl. apply IH; [exact Hin|].
      intros j a Hj. apply Hstep. now right.
Qed.

Lemma for_each_dichotomy {I S : Type} (P : exn -> Prop) (xs : list I)
  (body : I -> S -> result S) :
  (forall i a, In i xs ->
     (exists b, body i a = inr b) \/ (exists e, body i a = inl e /\ P e)) ->
  forall s,
    (exists b, for_each xs body s = inr b) \/
    (exists e, for_each xs body s = inl e /\ P e).
Proof.
  intros Hstep. induction xs as [|i xs IH]; intros s.
  - left. now exists s.
  - simpl.
    destruct (Hstep i s (or_introl eq_refl)) as [(b & Hb)|(e & He & HP)].
    + rewrite Hb. simpl. apply IH. intros j a Hj. apply Hstep. now right.
    + rewrite He. right. now exists e.
Qed.

Lemma fill_matrix_entry_of_sequences (d : pydict) (i dt : nat)
  (m : list (list R)) :
  model_keys_hold_sequences d -> (i < 17)%nat ->
  (exists b, fill_matrix_entry d i dt m = inr b) \/
  (exists e, fill_matrix_entry d i dt m = inl e /\
             exists args, e = IndexError args).
Proof.
  intros Hseq Hi. unfold fill_matrix_entry.
  destruct (key_in (nth i orderedKeys "") d) eqn:Hin;
    [|left; eexists; reflexivity].
  destruct (key_in_dict_get _ _ Hin) as (k' & v & _ & Hget).
  rewrite Hget. specialize (Hseq _ v (ordered_key_in i Hi) Hget).
  destruct v; try discriminate Hseq; cbn [rbind getitem];
    destruct (nth_error xs dt);
    first [left; eexists; reflexivity
          | right; eexists; split; [reflexivity | eexists; reflexivity]].
Qed.

Lemma fill_matrix_entry_past_the_end (d : pydict) (i : nat) (v : pyvalue)
  (xs : list R) (m : list (list R)) :
  dict_get d (nth i orderedKeys "") = inr v ->
  sequence_items v = Some xs ->
  exists e, fill_matrix_entry d i (List.length xs) m = inl e /\
            exists args, e = IndexError args.
Proof.
  intros Hget Hxs. unfold fill_matrix_entry.
  assert (Hin : key_in (nth i orderedKeys "") d = true).
  { destruct (key_in (nth i orderedKeys "") d) eqn:Hin; [reflexivity|].
    rewrite (key_not_in_dict_get _ _ Hin) in Hget. discriminate. }
  rewrite Hin, Hget.
  assert (Hnone : nth_error xs (List.length xs) = None)
    by (apply nth_error_None; lia).
  destruct v; try discriminate Hxs; inversion Hxs; subst;
    cbn [rbind getitem]; rewrite Hnone;
    eexists; (split; [reflexivity | eexists; reflexivity]).
Qed.

(** X14: in the array branch, when every model parameter present holds a
    sequence and one of them has fewer numbers than the first key has
    characters, [_prepMagInput] raises an IndexError. *)
Theorem prepMagInput_short_sequence (key0 : string) (val0 : pyvalue)
  (rest : pydict) (key : string) (v : pyvalue) (xs : list R) :
  let d : pydict := (key0, val0) :: rest in
  is_sequence val0 = true ->
  model_keys_hold_sequences d ->
  In key orderedKeys ->
  dict_get d key = inr v ->
  sequence_items v = Some xs ->
  (List.length xs < String.length key0)%nat ->
  exists args, _prepMagInput (Some d) = inl (IndexError args).
Proof.
  intros d Hseq Hall Hkey Hget Hxs Hshort.
  destruct (In_nth _ _ "" Hkey) as (i0 & Hi0 & Hnth).
  change (List.length orderedKeys) with 17%nat in Hi0.
  unfold _prepMagInput, d. unfold is_sequence in Hseq. rewrite Hseq. fold d.
  set (P := fun e : exn => exists args, e = IndexError args).
  destruct (for_each_fails P (seq 0 (List.length orderedKeys))
              (fun i => for_each (seq 0 (String.length key0))
                          (fun dt => fill_matrix_entry d i dt)) i0)
    with (s := repeat (repeat 0 (String.length key0)) 25)
    as (e & He & args & ->).
  - apply in_seq. simpl. lia.
  - intros i a Hi. apply in_seq in Hi. apply for_each_dichotomy.
    intros dt b _. apply fill_matrix_entry_of_sequences; [exact Hall|].
    simpl in Hi. lia.
  - intros a.
    apply (for_each_fails P _ _ (List.length xs)).
    + apply in_seq. lia.
    + intros dt b _. now apply fill_matrix_entry_of_sequences.
    + intros b. apply (fill_matrix_entry_past_the_end d i0 v);
        [now rewrite Hnth | exact Hxs].
  - rewrite He. now exists args.
Qed.

Lemma prepMagInput_short_sequence_witness :
  exists args, _prepMagInput (Some two_step_inputs) = inl (IndexError args).
Proof.
  apply (prepMagInput_short_sequence "Dst" (PyList [-30; -20]) [] "Dst"
           (PyList [-30; -20]) [-30; -20]); try reflexivity.
  - intros key v Hkey Hget. simpl in Hkey.
    repeat (destruct Hkey as [<- | Hkey];
            [unfold dict_get in Hget; simpl in Hget;
             first [discriminate Hget | now inversion Hget]|]).
    contradiction.
  - simpl. tauto.
  - simpl. lia.
Defined.

Lemma for_each_ext {I S : Type} (xs : list I) (body body' : I -> S -> result S) :
  (forall i a, In i xs -> body i a = body' i a) ->
  forall s, for_each xs body s = for_each xs body' s.
Proof.
  intros Hext. induction xs as [|i xs IH]; intros s; [reflexivity|].
  simpl. rewrite <- (Hext i s (or_introl eq_refl)).
  destruct (body i s) as [e|b]; [reflexivity|]. simpl.
  apply IH. intros j a Hj. apply Hext. now right.
Qed.

Lemma model_key_lookup (key : string) (h : string * pyvalue) (rest : pydict) :
  In key orderedKeys ->
  key_in key (h :: filter (fun kv => model_key (fst kv)) rest)
  = key_in key (h :: rest) /\
  dict_get (h :: filter (fun kv => model_key (fst kv)) rest) key
  = dict_get (h :: rest) key.
Proof.
  intros Hkey.
  assert (Hmodel : forall k, String.eqb key k = true -> model_key k = true).
  { intros k Hk. apply String.eqb_eq in Hk. subst k.
    unfold model_key. apply existsb_exists. exists key.
    split; [exact Hkey | apply String.eqb_refl]. }
  unfold key_in, keys, dict_get. cbn [map existsb find fst].
  destruct (String.eqb key (fst h)); [split; reflexivity|]. cbn [orb].
  induction rest as [|[k v] rest [IHin IHget]]; [split; reflexivity|].
  cbn [filter fst].
  destruct (model_key k) eqn:Hk; cbn [map existsb find fst];
    destruct (String.eqb key k) eqn:Hkk.
  - split; reflexivity.
  - split; [exact IHin | exact IHget].
  - rewrite (Hmodel k Hkk) in Hk. discriminate.
  - split; [exact IHin | exact IHget].
Qed.

(** X15: entries of the dictionary whose key is not one of the 17 model
    parameters are never read, unless they come first: dropping them from
    the rest of the dictionary changes nothing, result or error. *)
Theorem prepMagInput_ignores_other_keys (h : string * pyvalue) (rest : pydict) :
  _prepMagInput (Some (h :: filter (fun kv => model_key (fst kv)) rest))
  = _prepMagInput (Some (h :: rest)).
Proof.
  destruct h as [key0 val0]. unfold _prepMagInput.
  assert (Hv : forall i buf, In i (seq 0 (List.length orderedKeys)) ->
             fill_vector_entry
               ((key0, val0) :: filter (fun kv => model_key (fst kv)) rest) i buf
             = fill_vector_entry ((key0, val0) :: rest) i buf).
  { intros i buf Hi. apply in_seq in Hi. unfold fill_vector_entry.
    destruct (model_key_lookup (nth i orderedKeys "") (key0, val0) rest)
      as [-> ->]; [apply ordered_key_in; simpl in Hi; lia | reflexivity]. }
  assert (Hm : forall i dt m, In i (seq 0 (List.length orderedKeys)) ->
             fill_matrix_entry
               ((key0, val0) :: filter (fun kv => model_key (fst kv)) rest) i dt m
             = fill_matrix_entry ((key0, val0) :: rest) i dt m).
  { intros i dt m Hi. apply in_seq in Hi. unfold fill_matrix_entry.
    destruct (model_key_lookup (nth i orderedKeys "") (key0, val0) rest)
      as [-> ->]; [apply ordered_key_in; simpl in Hi; lia | reflexivity]. }
  destruct (type_in (type_of val0) [t_ndarray; t_list]).
  - f_equal. apply for_each_ext. intros i a Hi.
    apply for_each_ext. intros dt b _. now apply Hm.
  - destruct (type_in (type_of val0) [t_int; t_float; t_np_float64]);
      [|reflexivity].
    f_equal. apply for_each_ext. intros i a Hi. now apply Hv.
Qed.

Lemma prepMagInput_ignores_other_keys_witness :
  _prepMagInput (Some [("Kp", PyInt 40); ("Dst", PyFloat (-30))])
  = _prepMagInput (Some annotated_inputs).
Proof.
  exact (prepMagInput_ignores_other_keys ("Kp", PyInt 40)
           [("comment", PyStr "quiet day"); ("Dst", PyFloat (-30));
            ("source", PyNone)]).
Defined.

Lemma for_each_error_source {I S : Type} (xs : list I)
  (body : I -> S -> result S) (s : S) (e : exn) :
  for_each xs body s = inl e ->
  exists i a, In i xs /\ body i a = inl e.
Proof.
  revert s. induction xs as [|i xs IH]; intros s H; [discriminate|].
  simpl in H. destruct (body i s) as [e'|b] eqn:Hb.
  - inversion H; subst. exists i, s. split; [now left | exact Hb].
  - simpl in H. destruct (IH b H) as (j & a & Hj & Ha).
    exists j, a. split; [now right | exact Ha].
Qed.

Lemma to_c_double_not_format (v : pyvalue) (e : exn) :
  to_c_double v = inl e -> e <> format_error.
Proof.
  destruct v as [z|x|x|xs|[|x [|y xs]]|s|]; simpl; intros H;
    try destruct (int_overflows_double z);
    inversion H; subst; discriminate.
Qed.

Lemma getitem_not_format (v : pyvalue) (dt : nat) (e : exn) :
  getitem v dt = inl e -> e <> format_error.
Proof.
  destruct v; simpl; intros H;
    try (destruct (nth_error xs dt)); try (destruct (String.get dt s));
    inversion H; subst; discriminate.
Qed.

Lemma dict_get_not_format (d : pydict) (key : string) (e : exn) :
  dict_get d key = inl e -> e <> format_error.
Proof.
  unfold dict_get. destruct (find _ d); intros H; inversion H; discriminate.
Qed.

(** X16: [_prepMagInput] raises its own "unrecognizable format" TypeError
    exactly when the dictionary is not empty and its first value is neither
    a list or ndarray nor an int, float or np.float64; no later value can
    produce it. *)
Theorem prepMagInput_format_error_iff (d : pydict) :
  _prepMagInput (Some d) = inl format_error <->
  exists key0 val0 rest,
    d = (key0, val0) :: rest /\
    is_sequence val0 = false /\ is_scalar_numeric val0 = false.
Proof.
  split.
  - destruct d as [|[key0 val0] rest]; [discriminate|].
    intros H. exists key0, val0, rest. split; [reflexivity|].
    unfold _prepMagInput in H. unfold is_sequence, is_scalar_numeric.
    destruct (type_in (type_of val0) [t_ndarray; t_list]).
    + exfalso. destruct (for_each _ _ _) as [e|m] eqn:Hloop; [|discriminate].
      simpl in H. inversion H; subst e.
      destruct (for_each_error_source _ _ _ _ Hloop) as (i & a & _ & Hinner).
      destruct (for_each_error_source _ _ _ _ Hinner) as (dt & b & _ & Hentry).
      unfold fill_matrix_entry in Hentry.
      destruct (key_in _ _); [|discriminate].
      destruct (dict_get _ _) as [e|col] eqn:Hget.
      { inversion Hentry; subst. now apply (dict_get_not_format _ _ _ Hget). }
      simpl in Hentry. destruct (getitem col dt) as [e|item] eqn:Hitem.
      { inversion Hentry; subst. now apply (getitem_not_format _ _ _ Hitem). }
      simpl in Hentry. destruct (to_c_double item) as [e|x] eqn:Hx.
      { inversion Hentry; subst. now apply (to_c_double_not_format _ _ Hx). }
      discriminate.
    + split; [reflexivity|].
      destruct (type_in (type_of val0) [t_int; t_float; t_np_float64]);
        [|reflexivity].
      exfalso. destruct (for_each _ _ _) as [e|m] eqn:Hloop; [|discriminate].
      simpl in H. inversion H; subst e.
      destruct (for_each_error_source _ _ _ _ Hloop) as (i & a & _ & Hentry).
      unfold fill_vector_entry in Hentry.
      destruct (key_in _ _); [|discriminate].
      destruct (dict_get _ _) as [e|col] eqn:Hget.
      { inversion Hentry; subst. now apply (dict_get_not_format _ _ _ Hget). }
      simpl in Hentry. destruct (to_c_double col) as [e|x] eqn:Hx.
      { inversion Hentry; subst. now apply (to_c_double_not_format _ _ Hx). }
      discriminate.
  - intros (key0 & val0 & rest & -> & Hseq & Hsc).
    unfold is_sequence in Hseq. unfold is_scalar_numeric in Hsc.
    unfold _prepMagInput. now rewrite Hseq, Hsc.
Qed.

Lemma prepMagInput_format_error_iff_witness :
  _prepMagInput (Some [("comment", PyStr "quiet day"); ("Kp", PyInt 40)])
  = inl format_error.
Proof.
  apply prepMagInput_format_error_iff.
  eexists. eexists. eexists.
  split; [reflexivity|]. split; reflexivity.
Defined.

(** ** The time and location normaliser *)

Lemma x_get_set_same (X : Input.xdict) (key : string) (v : Input.xvalue) :
  Input.x_get (Input.x_set X key v) key = inr v.
Proof.
  unfold Input.x_get. induction X as [|[k w] X IH]; simpl.
  - now rewrite String.eqb_refl.
  - destruct (String.eqb key k) eqn:Hk; simpl; rewrite Hk; [reflexivity|].
    exact IH.
Qed.

Lemma x_get_set_other (X : Input.xdict) (key key' : string) (v : Input.xvalue) :
  String.eqb key' key = false ->
  Input.x_get (Input.x_set X key v) key' = Input.x_get X key'.
Proof.
  intros Hne. unfold Input.x_get. induction X as [|[k w] X IH]; simpl.
  - now rewrite Hne.
  - destruct (String.eqb key k) eqn:Hk; simpl.
    + apply String.eqb_eq in Hk. subst k. now rewrite Hne.
    + destruct (String.eqb key' k); [reflexivity | exact IH].
Qed.

Lemma sole_number_as_array :
  forall (v : Input.xvalue) (x : R),
    Input.sole_number v = Some x ->
    Input.sole_number (Input.as_array v) = Some x.
Proof.
  fix IH 1. intros v x H.
  destruct v as [t|s|y|y| |kind items]; try discriminate H;
    try exact H.
  destruct kind; [discriminate H|].
  destruct items as [|item [|item' items]]; try discriminate H.
  simpl in *. now apply IH.
Qed.

Lemma firstn_succ_nth {A : Type} (j : nat) (l : list A) (d : A) :
  (j < List.length l)%nat -> firstn (S j) l = firstn j l ++ [nth j l d].
Proof.
  revert j. induction l as [|h t IH]; intros [|j] Hj; simpl in *; try lia.
  - reflexivity.
  - f_equal. apply IH. lia.
Qed.

Lemma Forall2_nth_error {A B : Type} (Q : A -> B -> Prop) (l : list A)
  (l' : list B) (k : nat) (d : B) :
  Forall2 Q l l' -> (k < List.length l')%nat ->
  exists a, nth_error l k = Some a /\ Q a (nth k l' d).
Proof.
  intros H. revert k. induction H as [|a b l l' Hab _ IH]; intros [|k] Hk;
    simpl in *; try lia.
  - now exists a.
  - apply IH. lia.
Qed.

Lemma Forall2_nth_error_none {A B : Type} (Q : A -> B -> Prop) (l : list A)
  (l' : list B) :
  Forall2 Q l l' -> nth_error l (List.length l') = None.
Proof.
  intros H. apply nth_error_None. apply Forall2_length in H. lia.
Qed.

Lemma for_each_app {I S : Type} (xs ys : list I) (body : I -> S -> result S)
  (s : S) :
  for_each (xs ++ ys) body s
  = rbind (for_each xs body s) (for_each ys body).
Proof.
  revert s. induction xs as [|i xs IH]; intros s; [reflexivity|].
  simpl. destruct (body i s) as [e|a]; [reflexivity|]. simpl. apply IH.
Qed.

Lemma fill_point_next (X : Input.xdict) (ts : list Input.datetime)
  (v1 v2 v3 : Input.xvalue) (xs1 xs2 xs3 : list R) (j : nat) :
  Input.x_get X "x1" = inr v1 -> holds_numbers v1 xs1 ->
  Input.x_get X "x2" = inr v2 -> holds_numbers v2 xs2 ->
  Input.x_get X "x3" = inr v3 -> holds_numbers v3 xs3 ->
  (j < List.length ts)%nat -> (j < List.length xs1)%nat ->
  (j < List.length xs2)%nat -> (j < List.length xs3)%nat ->
  Input.fill_point X j (arrays_after j ts xs1 xs2 xs3)
  = inr (arrays_after (S j) ts xs1 xs2 xs3).
Proof.
  intros Hx1 (k1 & i1 & -> & Hn1) Hx2 (k2 & i2 & -> & Hn2)
         Hx3 (k3 & i3 & -> & Hn3) Hts H1 H2 H3.
  unfold Input.fill_point, arrays_after. cbn [Input.times].
  rewrite nth_error_map.
  rewrite (nth_error_nth' ts new_year Hts). cbn [option_map rbind].
  destruct (Forall2_nth_error _ _ _ j 0 Hn1 H1) as (a1 & Hi1 & Ha1).
  destruct (Forall2_nth_error _ _ _ j 0 Hn2 H2) as (a2 & Hi2 & Ha2).
  destruct (Forall2_nth_error _ _ _ j 0 Hn3 H3) as (a3 & Hi3 & Ha3).
  rewrite Hx1. cbn [rbind Input.x_getitem]. rewrite Hi1. cbn [rbind].
  unfold Input.c_double at 1. rewrite Ha1. cbn [rbind].
  rewrite Hx2. cbn [rbind Input.x_getitem]. rewrite Hi2. cbn [rbind].
  unfold Input.c_double at 1. rewrite Ha2. cbn [rbind].
  rewrite Hx3. cbn [rbind Input.x_getitem]. rewrite Hi3. cbn [rbind].
  unfold Input.c_double at 1. rewrite Ha3.
  cbn [rbind Input.a_iyear Input.a_idoy Input.a_ut Input.a_x1 Input.a_x2
       Input.a_x3].
  rewrite (firstn_succ_nth j ts new_year Hts), !map_app.
  rewrite (firstn_succ_nth j xs1 0 H1), (firstn_succ_nth j xs2 0 H2),
    (firstn_succ_nth j xs3 0 H3).
  reflexivity.
Qed.

Lemma fill_points_prefix (X : Input.xdict) (ts : list Input.datetime)
  (v1 v2 v3 : Input.xvalue) (xs1 xs2 xs3 : list R) (m : nat) :
  Input.x_get X "x1" = inr v1 -> holds_numbers v1 xs1 ->
  Input.x_get X "x2" = inr v2 -> holds_numbers v2 xs2 ->
  Input.x_get X "x3" = inr v3 -> holds_numbers v3 xs3 ->
  forall k,
    (k + m <= List.length ts)%nat -> (k + m <= List.length xs1)%nat ->
    (k + m <= List.length xs2)%nat -> (k + m <= List.length xs3)%nat ->
    for_each (seq k m) (Input.fill_point X) (arrays_after k ts xs1 xs2 xs3)
    = inr (arrays_after (k + m) ts xs1 xs2 xs3).
Proof.
  intros Hx1 Hn1 Hx2 Hn2 Hx3 Hn3.
  induction m as [|m IH]; intros k Hts H1 H2 H3.
  - now rewrite Nat.add_0_r.
  - cbn [seq for_each].
    rewrite (fill_point_next X ts v1 v2 v3 xs1 xs2 xs3 k) by (assumption || lia).
    cbn [rbind]. rewrite IH by lia. f_equal. f_equal. lia.
Qed.

Lemma promote_sequence (X : Input.xdict) (v : Input.xvalue) :
  Input.x_get X "dateTime" = inr v -> Input.is_seq v = true ->
  Input.promote X = inr X.
Proof.
  intros Hd Hseq. unfold Input.promote. rewrite Hd. cbn [rbind].
  now rewrite Hseq.
Qed.

(** X17: a batch of points.  When [X] holds a non-empty sequence of
    datetime objects and x1, x2, x3 hold sequences of numbers at least as
    long, [make_lstar] hands the engine one entry per time, in the order
    given: the years, the days of the year, the seconds of the day and the
    coordinates of the same index; coordinates beyond the last time are
    left out.  It warns above 50,000 points and returns what the engine
    computed. *)
Theorem make_lstar_batch (parse : string -> result Input.datetime)
  (make_lstar1 : Input.lstar_arrays -> c_maginput -> list R)
  (trace : Input.timeloc -> c_maginput -> R -> list (R * R * R) * list R * Z)
  (X : Input.xdict) (kind : Input.seqkind) (ts : list Input.datetime)
  (v1 v2 v3 : Input.xvalue) (xs1 xs2 xs3 : list R)
  (maginput : option pydict) (mi : c_maginput) (status : bool)
  (out : list string) :
  let n := List.length ts in
  Input.x_get X "dateTime" = inr (Input.XSeq kind (map Input.XDate ts)) ->
  ts <> [] ->
  Input.x_get X "x1" = inr v1 -> holds_numbers v1 xs1 ->
  Input.x_get X "x2" = inr v2 -> holds_numbers v2 xs2 ->
  Input.x_get X "x3" = inr v3 -> holds_numbers v3 xs3 ->
  (n <= List.length xs1)%nat -> (n <= List.length xs2)%nat ->
  (n <= List.length xs3)%nat ->
  _prepMagInput maginput = inr mi ->
  @make_lstar (wrapper_engine parse make_lstar1 trace) X maginput status out
  = (inr {| lstar_blocal :=
              make_lstar1
                (arrays_of ts (firstn n xs1) (firstn n xs2) (firstn n xs3))
                mi |},
     lstar_output n status out).
Proof.
  intros n Hd Hne Hx1 Hn1 Hx2 Hn2 Hx3 Hn3 H1 H2 H3 Hmi.
  pose proof (promote_sequence X _ Hd eq_refl) as Hprom.
  unfold make_lstar, bind, lift.
  cbn [lstar_count lstar_parse lstar_fill make_lstar1_ wrapper_engine].
  unfold Input.lstar_count. rewrite Hprom. cbn [rbind]. rewrite Hd.
  cbn [rbind Input.x_len]. rewrite length_map. fold n. rewrite when_print.
  unfold Input.lstar_parse. rewrite Hprom. cbn [rbind]. rewrite Hd.
  destruct ts as [|t0 ts']; [contradiction|].
  cbn [rbind map Input.x_getitem nth_error]. rewrite Hmi.
  unfold Input.lstar_fill. rewrite Hprom. cbn [rbind Input.times].
  change (Input.XDate t0 :: map Input.XDate ts')
    with (map Input.XDate (t0 :: ts')).
  rewrite length_map. fold n.
  pose proof (fill_points_prefix X (t0 :: ts') v1 v2 v3 xs1 xs2 xs3 n
                Hx1 Hn1 Hx2 Hn2 Hx3 Hn3 0) as Hfill.
  unfold arrays_after in Hfill at 1. cbn [firstn map] in Hfill.
  cbn [map]. rewrite Hfill by (unfold n in *; simpl in *; lia).
  rewrite when_print. unfold ret, lstar_output.
  unfold arrays_after, arrays_of. cbn [Nat.add].
  replace (firstn n (t0 :: ts')) with (t0 :: ts')
    by (symmetry; apply firstn_all).
  destruct (50000 <? Z.of_nat n)%Z; destruct status; reflexivity.
Qed.

Lemma make_lstar_batch_witness :
  @make_lstar years_engine two_points None false []
  = (inr {| lstar_blocal := [2015; 2016] |}, []).
Proof.
  unfold years_engine.
  erewrite (make_lstar_batch _ _ _ two_points Input.KList
              [new_year; leap_day_evening]
              _ _ _ [651; 652] [63; 64] [15; 16; 17]);
    try reflexivity; try discriminate; try (simpl; lia);
    (eexists; eexists; split; [reflexivity | repeat constructor]).
Defined.

(** X18: a batch whose x1 sequence is shorter than the sequence of times
    makes [make_lstar] fail with an IndexError, when it reaches the first
    time that has no x1. *)
Theorem make_lstar_short_coordinates
  (parse : string -> result Input.datetime)
  (make_lstar1 : Input.lstar_arrays -> c_maginput -> list R)
  (trace : Input.timeloc -> c_maginput -> R -> list (R * R * R) * list R * Z)
  (X : Input.xdict) (kind : Input.seqkind) (ts : list Input.datetime)
  (v1 v2 v3 : Input.xvalue) (xs1 xs2 xs3 : list R)
  (maginput : option pydict) (mi : c_maginput) (status : bool)
  (out : list string) :
  let n := List.length ts in
  Input.x_get X "dateTime" = inr (Input.XSeq kind (map Input.XDate ts)) ->
  Input.x_get X "x1" = inr v1 -> holds_numbers v1 xs1 ->
  Input.x_get X "x2" = inr v2 -> holds_numbers v2 xs2 ->
  Input.x_get X "x3" = inr v3 -> holds_numbers v3 xs3 ->
  (List.length xs1 < n)%nat -> (n <= List.length xs2)%nat ->
  (n <= List.length xs3)%nat ->
  _prepMagInput maginput = inr mi ->
  exists args,
    fst (@make_lstar (wrapper_engine parse make_lstar1 trace) X maginput
           status out)
    = inl (IndexError args).
Proof.
  intros n Hd Hx1 Hn1 Hx2 Hn2 Hx3 Hn3 H1 H2 H3 Hmi.
  pose proof (promote_sequence X _ Hd eq_refl) as Hprom.
  unfold make_lstar, bind, lift.
  cbn [lstar_count lstar_parse lstar_fill make_lstar1_ wrapper_engine].
  unfold Input.lstar_count. rewrite Hprom. cbn [rbind]. rewrite Hd.
  cbn [rbind Input.x_len]. rewrite when_print.
  unfold Input.lstar_parse. rewrite Hprom. cbn [rbind]. rewrite Hd.
  destruct ts as [|t0 ts']; [simpl in n; lia|].
  cbn [rbind map Input.x_getitem nth_error]. rewrite Hmi.
  unfold Input.lstar_fill. rewrite Hprom. cbn [rbind Input.times].
  change (Input.XDate t0 :: map Input.XDate ts')
    with (map Input.XDate (t0 :: ts')).
  rewrite length_map. fold n.
  set (k := List.length xs1) in *.
  replace n with (k + S (n - k - 1))%nat by lia.
  rewrite seq_app, for_each_app.
  pose proof (fill_points_prefix X (t0 :: ts') v1 v2 v3 xs1 xs2 xs3 k
                Hx1 Hn1 Hx2 Hn2 Hx3 Hn3 0) as Hfill.
  unfold arrays_after in Hfill at 1. cbn [firstn map] in Hfill.
  cbn [map]. rewrite Hfill by (unfold n, k in *; simpl in *; lia).
  cbn [rbind Nat.add seq for_each].
  assert (Hfail : exists args,
             Input.fill_point X k (arrays_after k (t0 :: ts') xs1 xs2 xs3)
             = inl (IndexError args)).
  { destruct Hn1 as (k1 & i1 & -> & Hi1).
    unfold Input.fill_point, arrays_after. cbn [Input.times].
    rewrite nth_error_map.
    rewrite (nth_error_nth' (t0 :: ts') new_year)
      by (unfold n in *; simpl in *; lia).
    cbn [option_map rbind]. rewrite Hx1. cbn [rbind Input.x_getitem].
    unfold k. rewrite (Forall2_nth_error_none _ _ _ Hi1).
    eexists. reflexivity. }
  destruct Hfail as (args & ->). exists args. reflexivity.
Qed.

Lemma make_lstar_short_coordinates_witness :
  exists args,
    fst (@make_lstar years_engine two_points_one_x1 None false [])
    = inl (IndexError args).
Proof.
  unfold years_engine.
  eapply (make_lstar_short_coordinates _ _ _ two_points_one_x1 Input.KList
            [new_year; leap_day_evening] _ _ _ [651] [63; 64] [15; 16]);
    try reflexivity; try (simpl; lia);
    (eexists; eexists; split; [reflexivity | repeat constructor]).
Defined.

Lemma fill_point_with_times (X : Input.xdict) (T : list Input.xvalue)
  (j : nat) (a a' : Input.lstar_arrays) :
  Input.fill_point X j a = inr a' ->
  nth_error T j = nth_error (Input.times a) j ->
  Input.fill_point X j (with_times T a) = inr (with_times T a').
Proof.
  unfold Input.fill_point. cbn [with_times Input.times Input.a_iyear
    Input.a_idoy Input.a_ut Input.a_x1 Input.a_x2 Input.a_x3].
  intros H ->.
  destruct (nth_error (Input.times a) j) as [[t|s|x|x| |kind items]|];
    try discriminate H.
  cbn [rbind] in *.
  destruct (Input.x_get X "x1") as [e|c1]; [discriminate|]. cbn [rbind] in *.
  destruct (Input.x_getitem c1 j) as [e|w1]; [discriminate|]. cbn [rbind] in *.
  destruct (Input.c_double w1) as [e|a1]; [discriminate|]. cbn [rbind] in *.
  destruct (Input.x_get X "x2") as [e|c2]; [discriminate|]. cbn [rbind] in *.
  destruct (Input.x_getitem c2 j) as [e|w2]; [discriminate|]. cbn [rbind] in *.
  destruct (Input.c_double w2) as [e|a2]; [discriminate|]. cbn [rbind] in *.
  destruct (Input.x_get X "x3") as [e|c3]; [discriminate|]. cbn [rbind] in *.
  destruct (Input.x_getitem c3 j) as [e|w3]; [discriminate|]. cbn [rbind] in *.
  destruct (Input.c_double w3) as [e|a3]; [discriminate|]. cbn [rbind] in *.
  inversion H; subst a'. reflexivity.
Qed.

Lemma fill_points_with_times (X : Input.xdict) (T : list Input.xvalue)
  (ts : list Input.datetime) (v1 v2 v3 : Input.xvalue)
  (xs1 xs2 xs3 : list R) (m : nat) :
  Input.x_get X "x1" = inr v1 -> holds_numbers v1 xs1 ->
  Input.x_get X "x2" = inr v2 -> holds_numbers v2 xs2 ->
  Input.x_get X "x3" = inr v3 -> holds_numbers v3 xs3 ->
  (forall j, (j < List.length ts)%nat ->
             nth_error T j = nth_error (map Input.XDate ts) j) ->
  forall k,
    (k + m <= List.length ts)%nat -> (k + m <= List.length xs1)%nat ->
    (k + m <= List.length xs2)%nat -> (k + m <= List.length xs3)%nat ->
    for_each (seq k m) (Input.fill_point X)
      (with_times T (arrays_after k ts xs1 xs2 xs3))
    = inr (with_times T (arrays_after (k + m) ts xs1 xs2 xs3)).
Proof.
  intros Hx1 Hn1 Hx2 Hn2 Hx3 Hn3 HT.
  induction m as [|m IH]; intros k Hts H1 H2 H3.
  - now rewrite Nat.add_0_r.
  - cbn [seq for_each].
    rewrite (fill_point_with_times X T k _
               (arrays_after (S k) ts xs1 xs2 xs3)).
    + cbn [rbind]. rewrite IH by lia. f_equal. f_equal. f_equal. lia.
    + apply (fill_point_next X ts v1 v2 v3 xs1 xs2 xs3 k);
        (assumption || lia).
    + apply HT. lia.
Qed.

(** X19: the type of the first time decides for all of them.  When the
    sequence of times starts with datetime objects and holds something else
    further on, nothing is parsed: [make_lstar] fills the arrays up to that
    entry and fails on it with an AttributeError, whatever the date parser
    would have made of it. *)
Theorem make_lstar_first_time_decides
  (parse : string -> result Input.datetime)
  (make_lstar1 : Input.lstar_arrays -> c_maginput -> list R)
  (trace : Input.timeloc -> c_maginput -> R -> list (R * R * R) * list R * Z)
  (X : Input.xdict) (kind : Input.seqkind) (ts : list Input.datetime)
  (v : Input.xvalue) (more : list Input.xvalue)
  (v1 v2 v3 : Input.xvalue) (xs1 xs2 xs3 : list R)
  (maginput : option pydict) (mi : c_maginput) (status : bool)
  (out : list string) :
  let n := List.length ts in
  Input.x_get X "dateTime"
  = inr (Input.XSeq kind (map Input.XDate ts ++ v :: more)) ->
  ts <> [] ->
  is_date v = false ->
  Input.x_get X "x1" = inr v1 -> holds_numbers v1 xs1 ->
  Input.x_get X "x2" = inr v2 -> holds_numbers v2 xs2 ->
  Input.x_get X "x3" = inr v3 -> holds_numbers v3 xs3 ->
  (n <= List.length xs1)%nat -> (n <= List.length xs2)%nat ->
  (n <= List.length xs3)%nat ->
  _prepMagInput maginput = inr mi ->
  exists args,
    fst (@make_lstar (wrapper_engine parse make_lstar1 trace) X maginput
           status out)
    = inl (OtherError "AttributeError" args).
Proof.
  intros n Hd Hne Hv Hx1 Hn1 Hx2 Hn2 Hx3 Hn3 H1 H2 H3 Hmi.
  pose proof (promote_sequence X _ Hd eq_refl) as Hprom.
  unfold make_lstar, bind, lift.
  cbn [lstar_count lstar_parse lstar_fill make_lstar1_ wrapper_engine].
  unfold Input.lstar_count. rewrite Hprom. cbn [rbind]. rewrite Hd.
  cbn [rbind Input.x_len]. rewrite when_print.
  unfold Input.lstar_parse. rewrite Hprom. cbn [rbind]. rewrite Hd.
  destruct ts as [|t0 ts']; [now destruct Hne|].
  cbn [rbind map app Input.x_getitem nth_error]. rewrite Hmi.
  unfold Input.lstar_fill. rewrite Hprom. cbn [rbind Input.times].
  change (Input.XDate t0 :: map Input.XDate ts' ++ v :: more)
    with (map Input.XDate (t0 :: ts') ++ v :: more).
  set (T := map Input.XDate (t0 :: ts') ++ v :: more).
  assert (HT : forall j, (j < n)%nat ->
             nth_error T j = nth_error (map Input.XDate (t0 :: ts')) j).
  { intros j Hj. unfold T. apply nth_error_app1. now rewrite length_map. }
  assert (Hlen : List.length T = (n + S (List.length more))%nat).
  { unfold T. rewrite length_app, length_map. reflexivity. }
  rewrite Hlen, seq_app, for_each_app.
  pose proof (fill_points_with_times X T (t0 :: ts') v1 v2 v3 xs1 xs2 xs3 n
                Hx1 Hn1 Hx2 Hn2 Hx3 Hn3 HT 0) as Hfill.
  unfold arrays_after at 1, with_times at 1 in Hfill.
  cbn [firstn map Input.a_iyear Input.a_idoy Input.a_ut Input.a_x1
       Input.a_x2 Input.a_x3] in Hfill.
  rewrite Hfill by (unfold n in *; simpl in *; lia).
  cbn [rbind Nat.add seq for_each].
  unfold Input.fill_point at 1. cbn [with_times Input.times].
  assert (Hnth : nth_error T n = Some v).
  { unfold T. rewrite nth_error_app2 by (rewrite length_map; apply Nat.le_refl).
    rewrite length_map. fold n. now rewrite Nat.sub_diag. }
  rewrite Hnth.
  destruct v as [t|s|x|x| |k items]; try discriminate Hv;
    eexists; reflexivity.
Qed.

Lemma make_lstar_first_time_decides_witness :
  exists args,
    fst (@make_lstar years_engine date_then_string None false [])
    = inl (OtherError "AttributeError" args).
Proof.
  unfold years_engine.
  eapply (make_lstar_first_time_decides _ _ _ date_then_string Input.KList
            [new_year] (Input.XStr "2015-01-01T00:00:00") []
            _ _ _ [651; 652] [63; 64] [15; 16]);
    try reflexivity; try discriminate; try (simpl; lia);
    (eexists; eexists; split; [reflexivity | repeat constructor]).
Defined.

Lemma prepTimeLoc_inr (parse : string -> result Input.datetime)
  (X : Input.xdict) (tl : Input.timeloc) :
  Input._prepTimeLoc parse X = inr tl ->
  exists v t v1 v2 v3,
    Input.x_get X "dateTime" = inr v /\
    (v = Input.XDate t \/ exists s, v = Input.XStr s /\ parse s = inr t) /\
    Input.x_get X "x1" = inr v1 /\
    Input.sole_number v1 = Some (Input.x1 tl) /\
    Input.x_get X "x2" = inr v2 /\
    Input.sole_number v2 = Some (Input.x2 tl) /\
    Input.x_get X "x3" = inr v3 /\
    Input.sole_number v3 = Some (Input.x3 tl) /\
    Input.iyear tl = Input.year t /\
    Input.idoy tl = Input.tm_yday t /\
    Input.ut tl = IZR (Input.seconds_of_day t).
Proof.
  unfold Input._prepTimeLoc, Input.c_double. intros H.
  destruct (Input.x_get X "dateTime") as [e|v]; [discriminate|].
  cbn [rbind] in H.
  assert (Ht : exists t,
             (v = Input.XDate t \/
              exists s, v = Input.XStr s /\ parse s = inr t) /\
             rbind (inr t)
               (fun t : Input.datetime =>
                  v1 <-? Input.x_get X "x1" ;;
                  x1 <-? Input.c_double v1 ;;
                  v2 <-? Input.x_get X "x2" ;;
                  x2 <-? Input.c_double v2 ;;
                  v3 <-? Input.x_get X "x3" ;;
                  x3 <-? Input.c_double v3 ;;
                  inr {| Input.iyear := Input.year t;
                         Input.idoy := Input.tm_yday t;
                         Input.ut := IZR (Input.seconds_of_day t);
                         Input.x1 := x1; Input.x2 := x2; Input.x3 := x3 |})
             = inr tl).
  { destruct v as [t|s|x|x| |kind items]; try discriminate H.
    - exists t. split; [now left | exact H].
    - cbn [Input.parse_any] in H.
      destruct (parse s) as [e|t] eqn:Hs; [discriminate|].
      exists t. split; [right; now exists s | exact H]. }
  clear H. destruct Ht as (t & Hv & H).
  unfold Input.c_double in H. cbn [rbind] in H.
  destruct (Input.x_get X "x1") as [e|v1]; [discriminate|]. cbn [rbind] in H.
  destruct (Input.sole_number v1) as [a1|] eqn:H1; [|discriminate].
  cbn [rbind] in H.
  destruct (Input.x_get X "x2") as [e|v2]; [discriminate|]. cbn [rbind] in H.
  destruct (Input.sole_number v2) as [a2|] eqn:H2; [|discriminate].
  cbn [rbind] in H.
  destruct (Input.x_get X "x3") as [e|v3]; [discriminate|]. cbn [rbind] in H.
  destruct (Input.sole_number v3) as [a3|] eqn:H3; [|discriminate].
  cbn [rbind] in H. inversion H; subst tl. cbn.
  exists v, t, v1, v2, v3. repeat split; auto.
Qed.

(** X20: a single point.  Whenever [_prepTimeLoc] accepts a dictionary
    whose dateTime is not a list or array, [make_lstar] accepts it too and
    hands the engine arrays of one entry that hold exactly the year, day of
    the year, seconds of the day and coordinates [_prepTimeLoc] returns. *)
Theorem make_lstar_single_point (parse : string -> result Input.datetime)
  (make_lstar1 : Input.lstar_arrays -> c_maginput -> list R)
  (trace : Input.timeloc -> c_maginput -> R -> list (R * R * R) * list R * Z)
  (X : Input.xdict) (v : Input.xvalue) (tl : Input.timeloc)
  (maginput : option pydict) (mi : c_maginput) (status : bool)
  (out : list string) :
  Input._prepTimeLoc parse X = inr tl ->
  Input.x_get X "dateTime" = inr v ->
  Input.is_seq v = false ->
  _prepMagInput maginput = inr mi ->
  exists t,
    @make_lstar (wrapper_engine parse make_lstar1 trace) X maginput status out
    = (inr {| lstar_blocal :=
                make_lstar1
                  {| Input.times := [Input.XDate t];
                     Input.a_iyear := [Input.iyear tl];
                     Input.a_idoy := [Input.idoy tl];
                     Input.a_ut := [Input.ut tl];
                     Input.a_x1 := [Input.x1 tl];
                     Input.a_x2 := [Input.x2 tl];
                     Input.a_x3 := [Input.x3 tl] |} mi |},
       lstar_output 1 status out).
Proof.
  intros Htl Hd Hseq Hmi.
  destruct (prepTimeLoc_inr parse X tl Htl)
    as (v' & t & v1 & v2 & v3 & Hd' & Hv & Hx1 & H1 & Hx2 & H2 & Hx3 & H3
        & Hy & Hdoy & Hut).
  rewrite Hd in Hd'. inversion Hd'; subst v'. clear Hd'.
  exists t.
  set (X2 := Input.x_set
               (Input.x_set
                  (Input.x_set
                     (Input.x_set X "dateTime"
                        (Input.as_array (Input.XSeq Input.KList [v])))
                     "x1" (Input.as_array (Input.XSeq Input.KList [v1])))
                  "x2" (Input.as_array (Input.XSeq Input.KList [v2])))
               "x3" (Input.as_array (Input.XSeq Input.KList [v3]))).
  assert (Hprom : Input.promote X = inr X2).
  { unfold Input.promote. rewrite Hd. cbn [rbind]. rewrite Hseq.
    rewrite (x_get_set_other X "dateTime" "x1") by reflexivity.
    rewrite Hx1. cbn [rbind].
    rewrite !(x_get_set_other _ _ "x2") by reflexivity.
    rewrite Hx2. cbn [rbind].
    rewrite !(x_get_set_other _ _ "x3") by reflexivity.
    rewrite Hx3. reflexivity. }
  assert (Hg0 : Input.x_get X2 "dateTime"
                = inr (Input.XSeq Input.KArray [Input.as_array v])).
  { unfold X2. rewrite !(x_get_set_other _ _ "dateTime") by reflexivity.
    now rewrite x_get_set_same. }
  assert (Hg1 : Input.x_get X2 "x1"
                = inr (Input.XSeq Input.KArray [Input.as_array v1])).
  { unfold X2. rewrite !(x_get_set_other _ _ "x1") by reflexivity.
    now rewrite x_get_set_same. }
  assert (Hg2 : Input.x_get X2 "x2"
                = inr (Input.XSeq Input.KArray [Input.as_array v2])).
  { unfold X2. rewrite !(x_get_set_other _ _ "x2") by reflexivity.
    now rewrite x_get_set_same. }
  assert (Hg3 : Input.x_get X2 "x3"
                = inr (Input.XSeq Input.KArray [Input.as_array v3])).
  { unfold X2. now rewrite x_get_set_same. }
  assert (Hparse : Input.lstar_parse parse X
                   = inr {| Input.times := [Input.XDate t];
                            Input.a_iyear := []; Input.a_idoy := [];
                            Input.a_ut := []; Input.a_x1 := [];
                            Input.a_x2 := []; Input.a_x3 := [] |}).
  { unfold Input.lstar_parse. rewrite Hprom. cbn [rbind]. rewrite Hg0.
    cbn [rbind Input.x_getitem nth_error].
    destruct Hv as [->|(s & -> & Hs)]; cbn [Input.as_array rbind].
    - reflexivity.
    - cbn [Input.parse_all Input.parse_any]. now rewrite Hs. }
  unfold make_lstar, bind, lift.
  cbn [lstar_count lstar_parse lstar_fill make_lstar1_ wrapper_engine].
  unfold Input.lstar_count at 1. rewrite Hprom. cbn [rbind]. rewrite Hg0.
  cbn [rbind Input.x_len List.length]. rewrite when_print.
  rewrite Hparse, Hmi.
  unfold Input.lstar_fill. rewrite Hprom.
  cbn [rbind Input.times List.length seq for_each].
  unfold Input.fill_point.
  cbn [Input.times nth_error rbind].
  rewrite Hg1. cbn [rbind Input.x_getitem nth_error].
  unfold Input.c_double at 1. rewrite (sole_number_as_array v1 _ H1).
  cbn [rbind].
  rewrite Hg2. cbn [rbind Input.x_getitem nth_error].
  unfold Input.c_double at 1. rewrite (sole_number_as_array v2 _ H2).
  cbn [rbind].
  rewrite Hg3. cbn [rbind Input.x_getitem nth_error].
  unfold Input.c_double at 1. rewrite (sole_number_as_array v3 _ H3).
  cbn [rbind Input.a_iyear Input.a_idoy Input.a_ut Input.a_x1 Input.a_x2
       Input.a_x3 app].
  rewrite when_print. unfold ret, lstar_output.
  rewrite Hy, Hdoy, Hut.
  destruct status; reflexivity.
Qed.

Lemma make_lstar_single_point_witness :
  @make_lstar years_engine single_point None true []
  = (inr {| lstar_blocal := [2015] |}, ["Running IRBEM-LIB make_lstar"]).
Proof.
  unfold years_engine.
  destruct (make_lstar_single_point one_date_parser
              (fun a _ => map IZR (Input.a_iyear a))
              (fun _ _ _ => ([], [], (-9999)%Z))
              single_point (Input.XStr "2015-01-01T00:00:00")
              {| Input.iyear := 2015; Input.idoy := 1; Input.ut := 0;
                 Input.x1 := 651; Input.x2 := 63; Input.x3 := 15 |}
              None _ true [] eq_refl eq_refl eq_refl eq_refl) as (t & Ht).
  rewrite Ht. reflexivity.
Defined.

Lemma yday_bounds (y m d : Z) :
  (1 <= m <= 12)%Z -> (1 <= d <= Input.days_in_month y m)%Z ->
  (1 <= Input.days_before_month y m + d <= 366)%Z.
Proof.
  intros Hm Hd.
  assert (Hcases : (m = 1 \/ m = 2 \/ m = 3 \/ m = 4 \/ m = 5 \/ m = 6 \/
                    m = 7 \/ m = 8 \/ m = 9 \/ m = 10 \/ m = 11 \/ m = 12)%Z)
    by lia.
  unfold Input.days_before_month, Input.days_in_month in *.
  repeat (destruct Hcases as [-> | Hcases]); try subst m;
    match goal with
    | |- context [seq 1 ?n] =>
        let k := eval vm_compute in n in change n with k
    end;
    cbn -[Z.add Z.le] in *; destruct (Input.is_leap y); lia.
Qed.

(** X21: for a datetime object, [_prepTimeLoc] returns the year, a day of
    the year between 1 and 366, and a time of day in whole seconds from
    which hour, minute and second can be read back; the microseconds are
    dropped. *)
Theorem prepTimeLoc_time_of_day (parse : string -> result Input.datetime)
  (X : Input.xdict) (t : Input.datetime) (tl : Input.timeloc) :
  Input.x_get X "dateTime" = inr (Input.XDate t) ->
  Input.well_formed t ->
  Input._prepTimeLoc parse X = inr tl ->
  Input.iyear tl = Input.year t /\
  (1 <= Input.idoy tl <= 366)%Z /\
  exists s : Z,
    Input.ut tl = IZR s /\
    (0 <= s < 86400)%Z /\
    (s / 3600 = Input.hour t)%Z /\
    (s mod 3600 / 60 = Input.minute t)%Z /\
    (s mod 60 = Input.second t)%Z.
Proof.
  intros Hd (Hy & Hm & Hday & Hh & Hmin & Hs & _) Htl.
  destruct (prepTimeLoc_inr parse X tl Htl)
    as (v & t' & _ & _ & _ & Hd' & Hv & _ & _ & _ & _ & _ & _
        & Hyear & Hdoy & Hut).
  rewrite Hd in Hd'. inversion Hd'; subst v.
  destruct Hv as [Hv|(s & Hv & _)]; [|discriminate Hv].
  inversion Hv; subst t'. clear Hv Hd'.
  split; [exact Hyear|]. split.
  - rewrite Hdoy. unfold Input.tm_yday. now apply yday_bounds.
  - exists (Input.seconds_of_day t). split; [exact Hut|].
    unfold Input.seconds_of_day.
    assert (Hmod : ((3600 * Input.hour t + 60 * Input.minute t
                     + Input.second t) mod 3600
                    = 60 * Input.minute t + Input.second t)%Z).
    { symmetry. apply Z.mod_unique with (q := Input.hour t); lia. }
    repeat split; try lia.
    + symmetry.
      apply Z.div_unique with (r := (60 * Input.minute t + Input.second t)%Z);
        lia.
    + rewrite Hmod. symmetry.
      apply Z.div_unique with (r := Input.second t); lia.
    + symmetry.
      apply Z.mod_unique
        with (q := (60 * Input.hour t + Input.minute t)%Z); lia.
Qed.

Lemma prepTimeLoc_time_of_day_witness :
  let tl := {| Input.iyear := 2016; Input.idoy := 60; Input.ut := 66615;
               Input.x1 := 651; Input.x2 := 63; Input.x3 := 15 |} in
  Input.iyear tl = 2016%Z /\
  (1 <= Input.idoy tl <= 366)%Z /\
  exists s : Z,
    Input.ut tl = IZR s /\
    (0 <= s < 86400)%Z /\
    (s / 3600 = 18)%Z /\ (s mod 3600 / 60 = 30)%Z /\ (s mod 60 = 15)%Z.
Proof.
  intros tl.
  apply (prepTimeLoc_time_of_day one_date_parser
           [("dateTime", Input.XDate leap_day_evening);
            ("x1", Input.XNum 651); ("x2", Input.XNum 63);
            ("x3", Input.XNum 15)]
           leap_day_evening tl eq_refl).
  - repeat split; vm_compute; (reflexivity || discriminate).
  - reflexivity.
Defined.
